(** * Delivero backend: order lifecycle, pricing and dispatch

    A shallow embedding of the order controller, the delivery controller and
    the [Order] schema hooks, together with the properties of the order
    life-cycle specification that can be settled on them.

    Modelling conventions.
    - A MongoDB collection that the code scans ([Order.find],
      [Restaurant.findOne]) is a list of documents in natural order; a
      collection that is only reached by [_id] is a finite map.
    - ObjectIds are natural numbers; a [Date] is a binary natural number of
      milliseconds. All [new Date()] readings of one request are one reading.
    - A JavaScript [Number] holding money is an exact rational ([Q]) in the
      documents and the handlers; the statements made there do not depend on
      how a sum or a product is rounded. The arithmetic of [calculatePricing]
      itself is embedded a second time, on IEEE 754 binary64 numbers (module
      [Doubles]), and what is said about the values it computes is said there.
    - A [Number] holding a coordinate or a distance is a real ([R]), because
      the haversine formula needs [sin], [cos], [sqrt] and [atan]; [NaN] is
      [None] where it can arise. Statements about distances are statements
      about comparisons ([<= 10], the order of the answer), not about digits.
    - A handler [async (req, res, next)] is a function from the request and
      the store to a response and a new store; [next(error)] is the response
      [Thrown]. Socket emissions are not part of the model.
    - Mongoose is modelled as far as the handlers rely on it: [populate] of a
      missing document gives [null], a path set to the value it already has is
      not modified, a schema default is not a modification, [save] validates
      the [enum] of [status], [limit(0)] is no limit. *)

From Stdlib Require Import Floats.
From Stdlib Require Import QArith Qfield Reals Lra Lia.
From stdpp Require Import base decidable option list sorting gmap strings.

Open Scope string_scope.
Open Scope list_scope.

(** ** Identifiers, time, responses *)

Abbreviation Id := nat (only parsing).
Abbreviation Date := N (only parsing).

Inductive Error :=
  | TypeError
  | ValidationError
  | CastError
  | MongoError.

(** The [message] of an error response. *)
Inductive Message :=
  | RestaurantNotAvailable
  | InvalidPaymentMethod (paymentMethod : string)
  | MenuItemNotAvailable (menuItem : Id)
  | MinimumOrderAmount (minimumOrder : Q)
  | OrderNotFound
  | NotAuthorized
  | OrderCannotBeCancelled
  | NotAuthorizedToCancel
  | MarkAvailableFirst
  | LocationRequired
  | OrderNotReady
  | OrderAlreadyAssigned
  | StatusInvalidForPickup.

Inductive Response (A : Type) :=
  | Success (code : nat) (data : A)
  | Failure (code : nat) (message : Message)
  | Thrown (err : Error).
Arguments Success {A} code data.
Arguments Failure {A} code message.
Arguments Thrown {A} err.

Definition is_success {A} (r : Response A) : bool :=
  match r with Success _ _ => true | _ => false end.

(** ** Order status (the [enum] of [orderSchema.status]) *)

Inductive Status :=
  | pending | confirmed | preparing | ready | assigned
  | picked_up | on_the_way | delivered | cancelled | rejected.

#[global] Instance Status_eq_dec : EqDecision Status.
Proof. solve_decision. Defined.

Definition status_name (s : Status) : string :=
  match s with
  | pending => "pending" | confirmed => "confirmed" | preparing => "preparing"
  | ready => "ready" | assigned => "assigned" | picked_up => "picked-up"
  | on_the_way => "on-the-way" | delivered => "delivered"
  | cancelled => "cancelled" | rejected => "rejected"
  end.

Definition all_statuses : list Status :=
  [pending; confirmed; preparing; ready; assigned;
   picked_up; on_the_way; delivered; cancelled; rejected].

(** The enum validator of the schema: a string is accepted when it is one of
    the ten names. *)
Definition status_of_string (s : string) : option Status :=
  List.find (fun st => bool_decide (status_name st = s)) all_statuses.

(** [Array.prototype.includes] on an array of strings. *)
Definition includes (l : list string) (s : string) : bool :=
  bool_decide (s ∈ l).

(** ** Collections *)

(** [Model.findById] on a collection kept as a list. *)
Definition findById {A} (key : A -> Id) (i : Id) (l : list A) : option A :=
  List.find (fun d => bool_decide (key d = i)) l.

(** Writing back the document with identifier [i]. *)
Definition updateById {A} (key : A -> Id) (i : Id) (f : A -> A) (l : list A) : list A :=
  map (fun d => if bool_decide (key d = i) then f d else d) l.

(** A stable sort: [x] is placed before the first element it may precede.
    [Array.prototype.sort] is stable, and so is the order that the model
    gives to [Query.sort] among equal keys. *)
Fixpoint insert_by {A} (le : A -> A -> bool) (x : A) (l : list A) : list A :=
  match l with
  | [] => [x]
  | y :: l' => if le x y then x :: y :: l' else y :: insert_by le x l'
  end.

Definition sort_by {A} (le : A -> A -> bool) (l : list A) : list A :=
  foldr (insert_by le) [] l.

(** ** Pricing ([calculatePricing] of the order controller) *)

Module Pricing.

Local Open Scope Q_scope.

(** [process.env]: each variable is unset or holds a number. *)
Record Env := {
  SERVICE_FEE_RATE : option Q;
  SURGE_MULTIPLIER : option Q;
  COMMISSION_RATE : option Q
}.

Record SelectedOption := { opt_name : string; opt_price : Q }.

Record Customization := {
  cust_name : string;
  selectedOptions : list SelectedOption
}.

Record OrderItem := {
  menuItem : Id;
  name : string;
  price : Q;
  quantity : Q;
  customizations : list Customization;
  specialInstructions : string;
  subtotal : Q
}.

Record PricingSnapshot := {
  p_subtotal : Q;
  p_deliveryFee : Q;
  p_serviceFee : Q;
  p_tax : Q;
  p_discount : Q;
  p_total : Q;
  p_platformCommission : Q;
  p_restaurantEarnings : Q;
  p_driverEarnings : Q
}.

(** [parseFloat(process.env.X || d)] *)
Definition env_or (v : option Q) (d : Q) : Q := default d v.

Definition serviceFeeRate (env : Env) : Q := env_or (SERVICE_FEE_RATE env) (8 # 100).
Definition surgeMultiplierOf (env : Env) : Q := env_or (SURGE_MULTIPLIER env) (15 # 10).
Definition commissionRateOf (env : Env) : Q := env_or (COMMISSION_RATE env) (20 # 100).

Definition calculatePricing (env : Env) (items : list OrderItem)
    (deliveryFee : Q) (isSurgeTime : bool) : PricingSnapshot :=
  let subtotal := fold_left (fun sum item => sum + subtotal item) items 0 in
  let serviceFee := subtotal * serviceFeeRate env in
  let surgeMultiplier := if isSurgeTime then surgeMultiplierOf env else 1 in
  let adjustedDeliveryFee := deliveryFee * surgeMultiplier in
  let total := subtotal + adjustedDeliveryFee + serviceFee in
  let commissionRate := commissionRateOf env in
  let platformCommission := subtotal * commissionRate + serviceFee in
  let restaurantEarnings := subtotal - (subtotal * commissionRate) in
  let driverEarnings := adjustedDeliveryFee in
  {| p_subtotal := subtotal;
     p_deliveryFee := adjustedDeliveryFee;
     p_serviceFee := serviceFee;
     p_tax := 0;
     p_discount := 0;
     p_total := total;
     p_platformCommission := platformCommission;
     p_restaurantEarnings := restaurantEarnings;
     p_driverEarnings := driverEarnings |}.

End Pricing.
Export Pricing.

(** ** Pricing on binary64

    [calculatePricing] once more, on the numbers that JavaScript computes
    with: IEEE 754 binary64, every operation rounded to nearest. [+], [-] and
    [*] below are the operations of [Number]. *)

Module Doubles.

Local Open Scope float_scope.
#[local] Set Warnings "-inexact-float".

(** [process.env]: each variable is unset (or empty), or holds what
    [parseFloat] reads from it, [NaN] included. *)
Record Env := {
  SERVICE_FEE_RATE : option float;
  SURGE_MULTIPLIER : option float;
  COMMISSION_RATE : option float
}.

(** An order item, as far as the pricing reads it. *)
Record OrderItem := {
  menuItem : Id;
  name : string;
  price : float;
  quantity : float;
  subtotal : float
}.

Record PricingSnapshot := {
  p_subtotal : float;
  p_deliveryFee : float;
  p_serviceFee : float;
  p_tax : float;
  p_discount : float;
  p_total : float;
  p_platformCommission : float;
  p_restaurantEarnings : float;
  p_driverEarnings : float
}.

(** [parseFloat(process.env.X || d)] *)
Definition env_or (v : option float) (d : float) : float :=
  match v with
  | Some x => x
  | None => d
  end.

Definition calculatePricing (env : Env) (items : list OrderItem)
    (deliveryFee : float) (isSurgeTime : bool) : PricingSnapshot :=
  let subtotal := fold_left (fun sum item => sum + subtotal item) items 0 in
  let serviceFee := subtotal * env_or (SERVICE_FEE_RATE env) 0.08 in
  let surgeMultiplier :=
    if isSurgeTime then env_or (SURGE_MULTIPLIER env) 1.5 else 1.0 in
  let adjustedDeliveryFee := deliveryFee * surgeMultiplier in
  let total := subtotal + adjustedDeliveryFee + serviceFee in
  let commissionRate := env_or (COMMISSION_RATE env) 0.20 in
  let platformCommission := subtotal * commissionRate + serviceFee in
  let restaurantEarnings := subtotal - (subtotal * commissionRate) in
  let driverEarnings := adjustedDeliveryFee in
  {| p_subtotal := subtotal;
     p_deliveryFee := adjustedDeliveryFee;
     p_serviceFee := serviceFee;
     p_tax := 0;
     p_discount := 0;
     p_total := total;
     p_platformCommission := platformCommission;
     p_restaurantEarnings := restaurantEarnings;
     p_driverEarnings := driverEarnings |}.

(** An environment in which no rate is set, and an item with a given
    subtotal. *)
Definition unset : Env :=
  {| SERVICE_FEE_RATE := None; SURGE_MULTIPLIER := None; COMMISSION_RATE := None |}.

Definition itemOf (subtotal : float) : OrderItem :=
  {| menuItem := 100; name := "burger"; price := subtotal; quantity := 1;
     subtotal := subtotal |}.

End Doubles.

(** ** Documents *)

Module Schema.

Inductive Role := role_customer | role_restaurant | role_driver | role_admin.

#[global] Instance Role_eq_dec : EqDecision Role.
Proof. solve_decision. Defined.

(** [req.user], as the authentication middleware attaches it. *)
Record ReqUser := {
  u_id : Id;
  u_role : Role;
  u_name : string;
  u_phone : string
}.

Inductive PaymentMethod := card | cash | wallet.

Definition paymentMethod_of_string (s : string) : option PaymentMethod :=
  if bool_decide (s = "card") then Some card
  else if bool_decide (s = "cash") then Some cash
  else if bool_decide (s = "wallet") then Some wallet
  else None.

Inductive PaymentStatus := pay_pending | pay_completed | pay_failed | pay_refunded.

Record Payment := {
  method : PaymentMethod;
  pay_status : PaymentStatus;
  transactionId : option string;
  paidAt : option Date
}.

Record DeliveryAddress := {
  label : string;
  address : string;
  coordinates : list Q;
  instructions : string
}.

Record HistoryEntry := {
  h_status : Status;
  h_timestamp : Date
}.

Record Cancellation := {
  reason : string;
  cancelledBy : Role;
  cancelledAt : Date
}.

(** [ORD-<timestamp>-<random>]: the two parts. *)
Definition OrderNumber : Type := Date * N.

(** A persisted order. [orderNumber] is not optional here: the first
    pre-save hook sets it when the document is created and leaves it alone
    afterwards. *)
Record Order := {
  oid : Id;
  orderNumber : OrderNumber;
  customer : Id;
  restaurant : Id;
  driver : option Id;
  items : list OrderItem;
  pricing : PricingSnapshot;
  deliveryAddress : DeliveryAddress;
  customerPhone : string;
  customerName : string;
  status : Status;
  statusHistory : list HistoryEntry;
  payment : Payment;
  estimatedDeliveryTime : Date;
  acceptedAt : option Date;
  preparedAt : option Date;
  pickedUpAt : option Date;
  deliveredAt : option Date;
  isSurgeTime : bool;
  surgeMultiplier : Q;
  cancellation : option Cancellation;
  createdAt : Date
}.

(** Field assignments [order.f = v]. *)

Definition set_driver (v : option Id) (o : Order) : Order :=
  {| oid := oid o; orderNumber := orderNumber o; customer := customer o; restaurant :=
     restaurant o; driver := v; items := items o; pricing := pricing o;
     deliveryAddress := deliveryAddress o; customerPhone := customerPhone o;
     customerName := customerName o; status := status o; statusHistory :=
     statusHistory o; payment := payment o; estimatedDeliveryTime :=
     estimatedDeliveryTime o; acceptedAt := acceptedAt o; preparedAt := preparedAt o;
     pickedUpAt := pickedUpAt o; deliveredAt := deliveredAt o; isSurgeTime :=
     isSurgeTime o; surgeMultiplier := surgeMultiplier o; cancellation := cancellation
     o; createdAt := createdAt o |}.

Definition set_status (v : Status) (o : Order) : Order :=
  {| oid := oid o; orderNumber := orderNumber o; customer := customer o; restaurant :=
     restaurant o; driver := driver o; items := items o; pricing := pricing o;
     deliveryAddress := deliveryAddress o; customerPhone := customerPhone o;
     customerName := customerName o; status := v; statusHistory := statusHistory o;
     payment := payment o; estimatedDeliveryTime := estimatedDeliveryTime o;
     acceptedAt := acceptedAt o; preparedAt := preparedAt o; pickedUpAt := pickedUpAt
     o; deliveredAt := deliveredAt o; isSurgeTime := isSurgeTime o; surgeMultiplier :=
     surgeMultiplier o; cancellation := cancellation o; createdAt := createdAt o |}.

Definition set_statusHistory (v : list HistoryEntry) (o : Order) : Order :=
  {| oid := oid o; orderNumber := orderNumber o; customer := customer o; restaurant :=
     restaurant o; driver := driver o; items := items o; pricing := pricing o;
     deliveryAddress := deliveryAddress o; customerPhone := customerPhone o;
     customerName := customerName o; status := status o; statusHistory := v; payment
     := payment o; estimatedDeliveryTime := estimatedDeliveryTime o; acceptedAt :=
     acceptedAt o; preparedAt := preparedAt o; pickedUpAt := pickedUpAt o; deliveredAt
     := deliveredAt o; isSurgeTime := isSurgeTime o; surgeMultiplier :=
     surgeMultiplier o; cancellation := cancellation o; createdAt := createdAt o |}.

Definition set_payment (v : Payment) (o : Order) : Order :=
  {| oid := oid o; orderNumber := orderNumber o; customer := customer o; restaurant :=
     restaurant o; driver := driver o; items := items o; pricing := pricing o;
     deliveryAddress := deliveryAddress o; customerPhone := customerPhone o;
     customerName := customerName o; status := status o; statusHistory :=
     statusHistory o; payment := v; estimatedDeliveryTime := estimatedDeliveryTime o;
     acceptedAt := acceptedAt o; preparedAt := preparedAt o; pickedUpAt := pickedUpAt
     o; deliveredAt := deliveredAt o; isSurgeTime := isSurgeTime o; surgeMultiplier :=
     surgeMultiplier o; cancellation := cancellation o; createdAt := createdAt o |}.

Definition set_acceptedAt (v : option Date) (o : Order) : Order :=
  {| oid := oid o; orderNumber := orderNumber o; customer := customer o; restaurant :=
     restaurant o; driver := driver o; items := items o; pricing := pricing o;
     deliveryAddress := deliveryAddress o; customerPhone := customerPhone o;
     customerName := customerName o; status := status o; statusHistory :=
     statusHistory o; payment := payment o; estimatedDeliveryTime :=
     estimatedDeliveryTime o; acceptedAt := v; preparedAt := preparedAt o; pickedUpAt
     := pickedUpAt o; deliveredAt := deliveredAt o; isSurgeTime := isSurgeTime o;
     surgeMultiplier := surgeMultiplier o; cancellation := cancellation o; createdAt
     := createdAt o |}.

Definition set_preparedAt (v : option Date) (o : Order) : Order :=
  {| oid := oid o; orderNumber := orderNumber o; customer := customer o; restaurant :=
     restaurant o; driver := driver o; items := items o; pricing := pricing o;
     deliveryAddress := deliveryAddress o; customerPhone := customerPhone o;
     customerName := customerName o; status := status o; statusHistory :=
     statusHistory o; payment := payment o; estimatedDeliveryTime :=
     estimatedDeliveryTime o; acceptedAt := acceptedAt o; preparedAt := v; pickedUpAt
     := pickedUpAt o; deliveredAt := deliveredAt o; isSurgeTime := isSurgeTime o;
     surgeMultiplier := surgeMultiplier o; cancellation := cancellation o; createdAt
     := createdAt o |}.

Definition set_pickedUpAt (v : option Date) (o : Order) : Order :=
  {| oid := oid o; orderNumber := orderNumber o; customer := customer o; restaurant :=
     restaurant o; driver := driver o; items := items o; pricing := pricing o;
     deliveryAddress := deliveryAddress o; customerPhone := customerPhone o;
     customerName := customerName o; status := status o; statusHistory :=
     statusHistory o; payment := payment o; estimatedDeliveryTime :=
     estimatedDeliveryTime o; acceptedAt := acceptedAt o; preparedAt := preparedAt o;
     pickedUpAt := v; deliveredAt := deliveredAt o; isSurgeTime := isSurgeTime o;
     surgeMultiplier := surgeMultiplier o; cancellation := cancellation o; createdAt
     := createdAt o |}.

Definition set_deliveredAt (v : option Date) (o : Order) : Order :=
  {| oid := oid o; orderNumber := orderNumber o; customer := customer o; restaurant :=
     restaurant o; driver := driver o; items := items o; pricing := pricing o;
     deliveryAddress := deliveryAddress o; customerPhone := customerPhone o;
     customerName := customerName o; status := status o; statusHistory :=
     statusHistory o; payment := payment o; estimatedDeliveryTime :=
     estimatedDeliveryTime o; acceptedAt := acceptedAt o; preparedAt := preparedAt o;
     pickedUpAt := pickedUpAt o; deliveredAt := v; isSurgeTime := isSurgeTime o;
     surgeMultiplier := surgeMultiplier o; cancellation := cancellation o; createdAt
     := createdAt o |}.

Definition set_cancellation (v : option Cancellation) (o : Order) : Order :=
  {| oid := oid o; orderNumber := orderNumber o; customer := customer o; restaurant :=
     restaurant o; driver := driver o; items := items o; pricing := pricing o;
     deliveryAddress := deliveryAddress o; customerPhone := customerPhone o;
     customerName := customerName o; status := status o; statusHistory :=
     statusHistory o; payment := payment o; estimatedDeliveryTime :=
     estimatedDeliveryTime o; acceptedAt := acceptedAt o; preparedAt := preparedAt o;
     pickedUpAt := pickedUpAt o; deliveredAt := deliveredAt o; isSurgeTime :=
     isSurgeTime o; surgeMultiplier := surgeMultiplier o; cancellation := v; createdAt
     := createdAt o |}.

Record Restaurant := {
  rid : Id;
  owner : Id;
  r_isActive : bool;
  r_isOpen : bool;
  r_coordinates : option (list R); (* location.coordinates: [lng, lat];
                                      None: not stored *)
  minimumOrder : Q;
  deliveryTime_max : N;
  deliveryFee : Q;
  stats_totalOrders : nat;
  stats_totalRevenue : Q
}.

(** [driverProfile]; an absent [totalDeliveries] is 0, which is what [$inc]
    starts from. *)
Record DriverProfile := {
  isAvailable : bool;
  totalDeliveries : nat
}.

Record User := {
  usr_role : Role;
  driverProfile : DriverProfile
}.

Record MenuItem := {
  mi_name : string;
  mi_price : Q;
  mi_isAvailable : bool;
  mi_totalOrders : Q;
  mi_popularity : Q
}.

Record Store := {
  orders : list Order;
  restaurants : list Restaurant;
  users : gmap Id User;
  menuItems : gmap Id MenuItem
}.

Definition set_orders (v : list Order) (db : Store) : Store :=
  {| orders := v; restaurants := restaurants db; users := users db;
     menuItems := menuItems db |}.

Definition set_restaurants (v : list Restaurant) (db : Store) : Store :=
  {| orders := orders db; restaurants := v; users := users db;
     menuItems := menuItems db |}.

Definition set_users (v : gmap Id User) (db : Store) : Store :=
  {| orders := orders db; restaurants := restaurants db; users := v;
     menuItems := menuItems db |}.

Definition set_menuItems (v : gmap Id MenuItem) (db : Store) : Store :=
  {| orders := orders db; restaurants := restaurants db; users := users db;
     menuItems := v |}.

(** The second pre-save hook of [orderSchema]: when [status] is modified, push
    [{status, timestamp: new Date()}]. [loaded] is the status the document had
    when it was read. *)
Definition preSave (loaded : Status) (now : Date) (o : Order) : Order :=
  if bool_decide (status o = loaded) then o
  else set_statusHistory
         (statusHistory o ++ [{| h_status := status o; h_timestamp := now |}]) o.

(** [order.save()] of a document read from the store: the hooks run on the
    document ([preSave]), and the result replaces the stored one ([persist]). *)
Definition persist (o : Order) (db : Store) : Store :=
  set_orders (updateById oid (oid o) (fun _ => o) (orders db)) db.

Arguments preSave : simpl never.
Arguments persist : simpl never.

End Schema.
Export Schema.

(** ** The order controller *)

Module OrderController.

Local Open Scope Q_scope.

(** *** [createOrder] *)

(** One entry of [req.body.items]. *)
Record ReqItem := {
  ri_menuItem : Id;
  ri_quantity : Q;
  ri_customizations : option (list Customization);
  ri_specialInstructions : option string
}.

Record CreateOrderBody := {
  b_restaurant : Id;
  b_items : list ReqItem;
  b_deliveryAddress : DeliveryAddress;
  b_paymentMethod : string;
  b_isSurgeTime : bool
}.

(** The two nested loops over [item.customizations] and
    [custom.selectedOptions]. *)
Definition addCustomizations (quantity : Q) (itemPrice : Q)
    (customs : list Customization) : Q :=
  fold_left
    (fun acc custom =>
       fold_left (fun acc' option => acc' + opt_price option * quantity)
                 (selectedOptions custom) acc)
    customs itemPrice.

(** The body of the loop "Validate and calculate item prices" for one item. *)
Definition buildOrderItem (db : Store) (item : ReqItem) : option OrderItem :=
  match menuItems db !! ri_menuItem item with
  | None => None
  | Some menuItem =>
      if negb (mi_isAvailable menuItem) then None
      else
        let itemPrice := mi_price menuItem * ri_quantity item in
        let itemPrice :=
          match ri_customizations item with
          | Some customs => addCustomizations (ri_quantity item) itemPrice customs
          | None => itemPrice
          end in
        Some {| menuItem := ri_menuItem item;
                name := mi_name menuItem;
                price := mi_price menuItem;
                quantity := ri_quantity item;
                customizations := default [] (ri_customizations item);
                specialInstructions := default "" (ri_specialInstructions item);
                subtotal := itemPrice |}
  end.

(** The whole loop: the items built so far, or the identifier of the first
    menu item that is missing or unavailable. *)
Fixpoint buildOrderItems (db : Store) (items : list ReqItem)
    (orderItems : list OrderItem) : Id + list OrderItem :=
  match items with
  | [] => inr orderItems
  | item :: rest =>
      match buildOrderItem db item with
      | None => inl (ri_menuItem item)
      | Some oi => buildOrderItems db rest (orderItems ++ [oi])
      end
  end.

(** A new ObjectId: one that no stored order has. *)
Definition fresh_oid (l : list Order) : Id := S (max_list (map oid l)).

(** The validators that [Order.create] runs on the new document: [min: 1] on
    every quantity, [required] on the strings. ([required] on the array
    [coordinates] is satisfied by every array, the empty one included.) *)
Definition validNewOrder (user : ReqUser) (body : CreateOrderBody)
    (orderItems : list OrderItem) : bool :=
  forallb (fun oi => Qle_bool 1 (quantity oi)) orderItems
  && negb (bool_decide (address (b_deliveryAddress body) = ""))
  && negb (bool_decide (u_phone user = ""))
  && negb (bool_decide (u_name user = "")).

(** "Update menu item popularity": a [$inc] per order item. *)
Definition bumpPopularity (oi : OrderItem) (m : gmap Id MenuItem) : gmap Id MenuItem :=
  alter (fun mi => {| mi_name := mi_name mi; mi_price := mi_price mi;
                      mi_isAvailable := mi_isAvailable mi;
                      mi_totalOrders := mi_totalOrders mi + quantity oi;
                      mi_popularity := mi_popularity mi + quantity oi |})
        (menuItem oi) m.

Definition createOrder (env : Env) (now : Date) (random : N) (user : ReqUser)
    (body : CreateOrderBody) (db : Store) : Response Order * Store :=
  match findById rid (b_restaurant body) (restaurants db) with
  | None => (Failure 400 RestaurantNotAvailable, db)
  | Some restaurant =>
      if negb (r_isActive restaurant) || negb (r_isOpen restaurant) then
        (Failure 400 RestaurantNotAvailable, db)
      else
        match paymentMethod_of_string (b_paymentMethod body) with
        | None => (Failure 400 (InvalidPaymentMethod (b_paymentMethod body)), db)
        | Some paymentMethod =>
            match buildOrderItems db (b_items body) [] with
            | inl missing => (Failure 400 (MenuItemNotAvailable missing), db)
            | inr orderItems =>
                let pricing :=
                  calculatePricing env orderItems (deliveryFee restaurant)
                                   (b_isSurgeTime body) in
                if Qlt_le_dec (p_subtotal pricing) (minimumOrder restaurant) then
                  (Failure 400 (MinimumOrderAmount (minimumOrder restaurant)), db)
                else
                  (* surgeMultiplier: parseFloat(process.env.SURGE_MULTIPLIER),
                     NaN when the variable is unset, which the schema rejects *)
                  let surge :=
                    if b_isSurgeTime body then SURGE_MULTIPLIER env else Some 1 in
                  match surge with
                  | None => (Thrown ValidationError, db)
                  | Some surgeMultiplier =>
                      if negb (validNewOrder user body orderItems) then
                        (Thrown ValidationError, db)
                      else
                        let order :=
                          {| oid := fresh_oid (orders db);
                             orderNumber := (now, random);
                             customer := u_id user;
                             restaurant := b_restaurant body;
                             driver := None;
                             items := orderItems;
                             pricing := pricing;
                             deliveryAddress := b_deliveryAddress body;
                             customerPhone := u_phone user;
                             customerName := u_name user;
                             status := pending;
                             statusHistory := [];
                             payment := {| method := paymentMethod;
                                           pay_status := pay_pending;
                                           transactionId := None;
                                           paidAt := None |};
                             estimatedDeliveryTime :=
                               (now + deliveryTime_max restaurant * 60 * 1000)%N;
                             acceptedAt := None;
                             preparedAt := None;
                             pickedUpAt := None;
                             deliveredAt := None;
                             isSurgeTime := b_isSurgeTime body;
                             surgeMultiplier := surgeMultiplier;
                             cancellation := None;
                             createdAt := now |} in
                        let db1 := set_orders (orders db ++ [order]) db in
                        let db2 :=
                          set_menuItems
                            (fold_left (fun m oi => bumpPopularity oi m)
                                       orderItems (menuItems db1)) db1 in
                        (Success 201 order, db2)
                  end
            end
        end
  end.

(** *** [getOrders] *)

(** [req.query] after [parseInt]; [default_query] holds the defaults of the
    destructuring. *)
Record OrdersQuery := {
  q_status : option string;
  q_page : Z;
  q_limit : Z
}.

Definition default_query : OrdersQuery :=
  {| q_status := None; q_page := 1; q_limit := 20 |}.

(** The filter object [query]; an absent key does not constrain. *)
Record OrderFilter := {
  f_customer : option Id;
  f_restaurant : option Id;
  f_driver : option Id;
  f_status : option string
}.

Definition matchesFilter (f : OrderFilter) (o : Order) : bool :=
  from_option (fun c => bool_decide (customer o = c)) true (f_customer f)
  && from_option (fun r => bool_decide (restaurant o = r)) true (f_restaurant f)
  && from_option (fun d => bool_decide (driver o = Some d)) true (f_driver f)
  && from_option (fun s => bool_decide (status_name (status o) = s)) true (f_status f).

(** "Role-based filtering" followed by "Status filter". *)
Definition buildQuery (user : ReqUser) (q : OrdersQuery) (db : Store) : OrderFilter :=
  let status :=
    match q_status q with
    | Some s => if bool_decide (s = "") then None else Some s
    | None => None
    end in
  match u_role user with
  | role_customer =>
      {| f_customer := Some (u_id user); f_restaurant := None;
         f_driver := None; f_status := status |}
  | role_restaurant =>
      (* Restaurant.findOne({ owner: req.user.id }) *)
      match List.find (fun r => bool_decide (owner r = u_id user)) (restaurants db) with
      | Some restaurant =>
          {| f_customer := None; f_restaurant := Some (rid restaurant);
             f_driver := None; f_status := status |}
      | None =>
          {| f_customer := None; f_restaurant := None;
             f_driver := None; f_status := status |}
      end
  | role_driver =>
      {| f_customer := None; f_restaurant := None;
         f_driver := Some (u_id user); f_status := status |}
  | role_admin =>
      {| f_customer := None; f_restaurant := None;
         f_driver := None; f_status := status |}
  end.

(** [.limit(n)]: 0 is no limit, a negative number limits to its absolute
    value. *)
Definition limitTo {A} (n : Z) (l : list A) : list A :=
  if (n =? 0)%Z then l else take (Z.abs_nat n) l.

Record OrdersPage := {
  pg_count : nat;
  pg_total : nat;
  pg_page : Z;
  pg_pages : option Z;             (* None: the division by a zero limit *)
  pg_data : list Order
}.

Definition getOrders (user : ReqUser) (q : OrdersQuery) (db : Store)
    : Response OrdersPage :=
  let query := buildQuery user q db in
  let skip := ((q_page q - 1) * q_limit q)%Z in
  if (skip <? 0)%Z then Thrown MongoError
  else
    let found := filter (fun o => matchesFilter query o) (orders db) in
    let sorted := sort_by (fun a b => createdAt b <=? createdAt a)%N found in
    let data := limitTo (q_limit q) (drop (Z.to_nat skip) sorted) in
    let total := length found in
    Success 200
      {| pg_count := length data;
         pg_total := total;
         pg_page := q_page q;
         pg_pages := if (q_limit q =? 0)%Z then None
                     else Some (- ((- Z.of_nat total) / q_limit q))%Z;
         pg_data := data |}.

(** *** [updateOrderStatus] *)

(** [order.driver && order.driver.toString() === req.user.id] *)
Definition isDriverOf (order : Order) (user : ReqUser) : bool :=
  bool_decide (driver order = Some (u_id user)).

(** "Update timestamps" *)
Definition stampMilestone (now : Date) (order : Order) : Order :=
  match status order with
  | confirmed => set_acceptedAt (Some now) order
  | ready => set_preparedAt (Some now) order
  | picked_up => set_pickedUpAt (Some now) order
  | delivered =>
      set_payment {| method := method (payment order);
                     pay_status := pay_completed;
                     transactionId := transactionId (payment order);
                     paidAt := Some now |}
                  (set_deliveredAt (Some now) order)
  | _ => order
  end.

Definition updateOrderStatus (now : Date) (user : ReqUser) (orderId : Id)
    (status : string) (db : Store) : Response Order * Store :=
  match findById oid orderId (orders db) with
  | None => (Failure 404 OrderNotFound, db)
  | Some order =>
      (* populate('restaurant'), then order.restaurant._id *)
      match findById rid (restaurant order) (restaurants db) with
      | None => (Thrown TypeError, db)
      | Some restaurant =>
          if includes ["confirmed"; "preparing"; "ready"; "rejected"] status
             && negb (bool_decide (owner restaurant = u_id user))
          then (Failure 403 NotAuthorized, db)
          else if includes ["picked-up"; "on-the-way"; "delivered"] status
                  && negb (isDriverOf order user)
          then (Failure 403 NotAuthorized, db)
          else
            (* order.status = status, checked against the enum by save() *)
            match status_of_string status with
            | None => (Thrown ValidationError, db)
            | Some target =>
                let order' := stampMilestone now (set_status target order) in
                let saved := preSave (Schema.status order) now order' in
                (Success 200 saved, persist saved db)
            end
      end
  end.

(** *** [cancelOrder] *)

Definition cancelOrder (now : Date) (user : ReqUser) (orderId : Id)
    (reason : string) (db : Store) : Response Order * Store :=
  match findById oid orderId (orders db) with
  | None => (Failure 404 OrderNotFound, db)
  | Some order =>
      if includes ["delivered"; "cancelled"] (status_name (status order)) then
        (Failure 400 OrderCannotBeCancelled, db)
      else
        match findById rid (restaurant order) (restaurants db) with
        | None => (Thrown TypeError, db)
        | Some restaurant =>
            let isCustomer := bool_decide (customer order = u_id user) in
            let isRestaurant := bool_decide (owner restaurant = u_id user) in
            if negb isCustomer && negb isRestaurant
               && negb (bool_decide (u_role user = role_admin))
            then (Failure 403 NotAuthorizedToCancel, db)
            else
              let order' :=
                set_cancellation
                  (Some {| reason := reason;
                           cancelledBy := if isCustomer then role_customer
                                          else if isRestaurant then role_restaurant
                                          else role_admin;
                           cancelledAt := now |})
                  (set_status cancelled order) in
              let saved := preSave (status order) now order' in
              (Success 200 saved, persist saved db)
        end
  end.

End OrderController.
Export OrderController.

(** ** The delivery controller *)

Module DeliveryController.

Local Open Scope R_scope.

#[global] Instance Rle_decision (x y : R) : Decision (x <= y) := Rle_dec x y.
#[global] Instance Rlt_decision (x y : R) : Decision (x < y) := Rlt_dec x y.
#[global] Instance Req_decision : EqDecision R := Req_dec_T.

(** [Math.atan2(y, x)] *)
Definition atan2 (y x : R) : R :=
  if decide (0 < x) then atan (y / x)
  else if decide (x < 0) then
         if decide (y < 0) then atan (y / x) - PI else atan (y / x) + PI
  else if decide (0 < y) then PI / 2
  else if decide (y < 0) then - (PI / 2)
  else 0.

(** "Helper function to calculate distance between two points (Haversine
    formula)" *)
Definition calculateDistance (lat1 lon1 lat2 lon2 : R) : R :=
  let R_ := 6371 in
  let dLat := (lat2 - lat1) * PI / 180 in
  let dLon := (lon2 - lon1) * PI / 180 in
  let a :=
    sin (dLat / 2) * sin (dLat / 2) +
    cos (lat1 * PI / 180) * cos (lat2 * PI / 180) *
    sin (dLon / 2) * sin (dLon / 2) in
  let c := 2 * atan2 (sqrt a) (sqrt (1 - a)) in
  R_ * c.

(** The haversine formula in its textbook form, [2 R asin (sqrt a)]. *)
Definition haversine (lat1 lon1 lat2 lon2 : R) : R :=
  let dLat := (lat2 - lat1) * PI / 180 in
  let dLon := (lon2 - lon1) * PI / 180 in
  let a :=
    (sin (dLat / 2))² +
    cos (lat1 * PI / 180) * cos (lat2 * PI / 180) * (sin (dLon / 2))² in
  2 * 6371 * asin (sqrt a).

(** An element of the response of [getAvailableOrders]:
    [{ ...order.toObject(), distance }]. *)
Record Candidate := {
  c_order : Order;
  distance : R
}.

(** The callback of [orders.map]: [None] is a [TypeError], that of reading
    [location] of a restaurant that [populate] did not find or that of
    reading [coordinates[1]] when the restaurant has no stored coordinates;
    an inner [None] is the [NaN] that an array too short gives. *)
Definition withDistance (db : Store) (lat lng : R) (order : Order)
    : option (Order * option R) :=
  match findById rid (restaurant order) (restaurants db) with
  | None => None
  | Some restaurant =>
      match r_coordinates restaurant with
      | None => None
      | Some coordinates =>
          Some (order,
                match coordinates !! 1%nat, coordinates !! 0%nat with
                | Some rlat, Some rlng => Some (calculateDistance lat lng rlat rlng)
                | _, _ => None
                end)
      end
  end.

(** [.filter(order => order.distance <= 10)]; the comparison is false on [NaN]. *)
Definition withinTen (od : Order * option R) : option Candidate :=
  match od.2 with
  | Some d => if decide (d <= 10) then Some {| c_order := od.1; distance := d |} else None
  | None => None
  end.

(** The query [Order.find({ status: 'ready', driver: null }).limit(20)]. *)
Definition readyUnassigned (o : Order) : bool :=
  bool_decide (status o = ready) && bool_decide (driver o = None).

Definition findReady (db : Store) : list Order :=
  take 20 (filter (fun o => readyUnassigned o) (orders db)).

(** [lat] and [lng] are the query parameters after [parseFloat]; [None] is a
    parameter that is absent or empty. A parameter that [parseFloat] reads as
    [NaN] has no counterpart here. *)
Definition getAvailableOrders (user : ReqUser) (lat lng : option R) (db : Store)
    : Response (list Candidate) :=
  match users db !! u_id user with
  | None => Thrown TypeError
  | Some driver =>
      if negb (isAvailable (driverProfile driver)) then Failure 400 MarkAvailableFirst
      else
        match lat, lng with
        | Some lat, Some lng =>
            match mapM (withDistance db lat lng) (findReady db) with
            | None => Thrown TypeError
            | Some mapped =>
                Success 200
                  (sort_by (fun a b => bool_decide (distance a <= distance b))
                           (omap withinTen mapped))
            end
        | _, _ => Failure 400 LocationRequired
        end
  end.

(** [User.findByIdAndUpdate(id, u)]: nothing happens when there is no such
    user. *)
Definition setAvailable (b : bool) (u : User) : User :=
  {| usr_role := usr_role u;
     driverProfile := {| isAvailable := b;
                         totalDeliveries := totalDeliveries (driverProfile u) |} |}.

Definition acceptOrder (now : Date) (user : ReqUser) (orderId : Id) (db : Store)
    : Response Order * Store :=
  match findById oid orderId (orders db) with
  | None => (Failure 404 OrderNotFound, db)
  | Some order =>
      if negb (bool_decide (status order = ready)) then (Failure 400 OrderNotReady, db)
      else if bool_decide (is_Some (driver order)) then
        (Failure 400 OrderAlreadyAssigned, db)
      else
        let order' := set_status assigned (set_driver (Some (u_id user)) order) in
        let saved := preSave (status order) now order' in
        let db1 := persist saved db in
        let db2 := set_users (alter (setAvailable false) (u_id user) (users db1)) db1 in
        (Success 200 saved, db2)
  end.

Definition pickupOrder (now : Date) (user : ReqUser) (orderId : Id) (db : Store)
    : Response Order * Store :=
  match findById oid orderId (orders db) with
  | None => (Failure 404 OrderNotFound, db)
  | Some order =>
      match driver order with
      | None => (Thrown TypeError, db)       (* order.driver.toString() *)
      | Some d =>
          if negb (bool_decide (d = u_id user)) then (Failure 403 NotAuthorized, db)
          else if negb (bool_decide (status order = assigned)) then
            (Failure 400 StatusInvalidForPickup, db)
          else
            let order' := set_pickedUpAt (Some now) (set_status picked_up order) in
            let saved := preSave (status order) now order' in
            (Success 200 saved, persist saved db)
      end
  end.

(** The two [findByIdAndUpdate] calls of [completeDelivery]. *)
Definition recordDelivery (u : User) : User :=
  {| usr_role := usr_role u;
     driverProfile := {| isAvailable := true;
                         totalDeliveries := S (totalDeliveries (driverProfile u)) |} |}.

Definition recordRevenue (earnings : Q) (r : Restaurant) : Restaurant :=
  {| rid := rid r; owner := owner r; r_isActive := r_isActive r;
     r_isOpen := r_isOpen r; r_coordinates := r_coordinates r;
     minimumOrder := minimumOrder r; deliveryTime_max := deliveryTime_max r;
     deliveryFee := deliveryFee r;
     stats_totalOrders := S (stats_totalOrders r);
     stats_totalRevenue := (stats_totalRevenue r + earnings)%Q |}.

Definition completeDelivery (now : Date) (user : ReqUser) (orderId : Id) (db : Store)
    : Response Order * Store :=
  match findById oid orderId (orders db) with
  | None => (Failure 404 OrderNotFound, db)
  | Some order =>
      match driver order with
      | None => (Thrown TypeError, db)       (* order.driver.toString() *)
      | Some d =>
          if negb (bool_decide (d = u_id user)) then (Failure 403 NotAuthorized, db)
          else
            let order' :=
              set_payment {| method := method (payment order);
                             pay_status := pay_completed;
                             transactionId := transactionId (payment order);
                             paidAt := Some now |}
                (set_deliveredAt (Some now) (set_status delivered order)) in
            let saved := preSave (status order) now order' in
            let db1 := persist saved db in
            let db2 := set_users (alter recordDelivery (u_id user) (users db1)) db1 in
            let db3 :=
              set_restaurants
                (updateById rid (restaurant saved)
                   (recordRevenue (p_restaurantEarnings (pricing saved)))
                   (restaurants db2)) db2 in
            (Success 200 saved, db3)
      end
  end.

End DeliveryController.
Export DeliveryController.

(** ** A small marketplace, used where a statement needs a concrete store *)

Module Scenario.

Local Open Scope Q_scope.

Definition env0 : Env :=
  {| SERVICE_FEE_RATE := None; SURGE_MULTIPLIER := None; COMMISSION_RATE := None |}.

(** One open restaurant (owner: user 10) at latitude 0, longitude 0. *)
Definition r1 : Restaurant :=
  {| rid := 1; owner := 10; r_isActive := true; r_isOpen := true;
     r_coordinates := Some [0%R; 0%R]; minimumOrder := 10; deliveryTime_max := 45;
     deliveryFee := 3; stats_totalOrders := 0; stats_totalRevenue := 0 |}.

Definition burger : MenuItem :=
  {| mi_name := "burger"; mi_price := 12; mi_isAvailable := true;
     mi_totalOrders := 0; mi_popularity := 0 |}.

Definition salad : MenuItem :=
  {| mi_name := "salad"; mi_price := 8; mi_isAvailable := true;
     mi_totalOrders := 0; mi_popularity := 0 |}.

Definition mkUser (r : Role) (available : bool) : User :=
  {| usr_role := r;
     driverProfile := {| isAvailable := available; totalDeliveries := 0 |} |}.

Definition db0 : Store :=
  {| orders := [];
     restaurants := [r1];
     users := <[10%nat := mkUser role_restaurant false]>
                (<[20%nat := mkUser role_customer false]>
                   (<[30%nat := mkUser role_driver true]>
                      (<[40%nat := mkUser role_restaurant false]> ∅)));
     menuItems := <[100%nat := burger]> (<[101%nat := salad]> ∅) |}.

Definition alice : ReqUser :=
  {| u_id := 20; u_role := role_customer; u_name := "Alice"; u_phone := "555-0100" |}.

Definition rita : ReqUser :=
  {| u_id := 10; u_role := role_restaurant; u_name := "Rita"; u_phone := "555-0101" |}.

Definition dan : ReqUser :=
  {| u_id := 30; u_role := role_driver; u_name := "Dan"; u_phone := "555-0102" |}.

(** A second driver. *)
Definition dora : ReqUser :=
  {| u_id := 31; u_role := role_driver; u_name := "Dora"; u_phone := "555-0104" |}.

(** A user with the restaurant role who owns no restaurant. *)
Definition omar : ReqUser :=
  {| u_id := 40; u_role := role_restaurant; u_name := "Omar"; u_phone := "555-0103" |}.

Definition home : DeliveryAddress :=
  {| label := "home"; address := "1 Main St"; coordinates := [0; 0];
     instructions := "" |}.

Definition oneOf (menuItem : Id) : CreateOrderBody :=
  {| b_restaurant := 1;
     b_items := [ {| ri_menuItem := menuItem; ri_quantity := 1;
                     ri_customizations := None; ri_specialInstructions := None |} ];
     b_deliveryAddress := home;
     b_paymentMethod := "cash";
     b_isSurgeTime := false |}.

(** Alice orders a burger at [t0]; the order gets the identifier 1. *)
Definition placed (t0 : Date) : Store :=
  (createOrder env0 t0 7 alice (oneOf 100) db0).2.

(** Rita confirms, prepares and marks the order ready. *)
Definition madeReady (t0 t1 t2 t3 : Date) : Store :=
  (updateOrderStatus t3 rita 1 "ready"
     (updateOrderStatus t2 rita 1 "preparing"
        (updateOrderStatus t1 rita 1 "confirmed" (placed t0)).2).2).2.

(** Dan accepts. *)
Definition accepted (t0 t1 t2 t3 t4 : Date) : Store :=
  (acceptOrder t4 dan 1 (madeReady t0 t1 t2 t3)).2.

(** Dan picks the order up. *)
Definition pickedUp (t0 t1 t2 t3 t4 t5 : Date) : Store :=
  (pickupOrder t5 dan 1 (accepted t0 t1 t2 t3 t4)).2.

(** The full life cycle: placed, confirmed, preparing, ready, assigned,
    picked up, delivered. *)
Definition lifecycle (t0 t1 t2 t3 t4 t5 t6 : Date) : Store :=
  (completeDelivery t6 dan 1 (pickedUp t0 t1 t2 t3 t4 t5)).2.

(** A ready, unassigned burger order of restaurant 1 with the identifier [i],
    and a store that holds [n] of them, in the order of their creation. *)
Definition readyOrder (i : Id) : Order :=
  let orderItems :=
    [{| menuItem := 100; name := "burger"; price := 12; quantity := 1;
        customizations := []; specialInstructions := ""; subtotal := 12 |}] in
  {| oid := i;
     orderNumber := (N.of_nat i, 7%N);
     customer := 20;
     restaurant := 1;
     driver := None;
     items := orderItems;
     pricing := calculatePricing env0 orderItems 3 false;
     deliveryAddress := home;
     customerPhone := "555-0100";
     customerName := "Alice";
     status := ready;
     statusHistory := [{| h_status := confirmed; h_timestamp := N.of_nat i |};
                       {| h_status := preparing; h_timestamp := N.of_nat i |};
                       {| h_status := ready; h_timestamp := N.of_nat i |}];
     payment := {| method := cash; pay_status := pay_pending;
                   transactionId := None; paidAt := None |};
     estimatedDeliveryTime := (N.of_nat i + 2700000)%N;
     acceptedAt := Some (N.of_nat i);
     preparedAt := Some (N.of_nat i);
     pickedUpAt := None;
     deliveredAt := None;
     isSurgeTime := false;
     surgeMultiplier := 1;
     cancellation := None;
     createdAt := N.of_nat i |}.

Definition crowd (n : nat) : Store :=
  set_orders (map readyOrder (seq 1 n)) db0.


Definition readyOrderOf (restaurantId : Id) (i : Id) : Order :=
  let o := readyOrder i in
  {| oid := oid o; orderNumber := orderNumber o; customer := customer o;
     restaurant := restaurantId; driver := driver o; items := items o;
     pricing := pricing o; deliveryAddress := deliveryAddress o;
     customerPhone := customerPhone o; customerName := customerName o;
     status := status o; statusHistory := statusHistory o; payment := payment o;
     estimatedDeliveryTime := estimatedDeliveryTime o; acceptedAt := acceptedAt o;
     preparedAt := preparedAt o; pickedUpAt := pickedUpAt o;
     deliveredAt := deliveredAt o; isSurgeTime := isSurgeTime o;
     surgeMultiplier := surgeMultiplier o; cancellation := cancellation o;
     createdAt := createdAt o |}.


(** What a handler answered, reduced to the status of the order it returned. *)
Definition answeredStatus (r : Response Order) : option Status :=
  match r with
  | Success _ o => Some (status o)
  | _ => None
  end.

(** The status and the history of the stored order [i]. *)
Definition storedStatus (i : Id) (db : Store) : option Status :=
  status <$> findById oid i (orders db).

Definition storedHistory (i : Id) (db : Store) : list HistoryEntry :=
  from_option statusHistory [] (findById oid i (orders db)).

End Scenario.
Export Scenario.

(** ** Vocabulary of the statements *)

Module Spec.

(** The statuses that [cancelOrder] lets through its guard
    [['delivered', 'cancelled'].includes(order.status)]. *)
Definition cancellable (s : Status) : bool :=
  negb (includes ["delivered"; "cancelled"] (status_name s)).

(** Who may cancel: the customer of the order, the owner of its restaurant,
    an administrator. *)
Definition mayCancel (user : ReqUser) (order : Order) (rest : Restaurant) : Prop :=
  customer order = u_id user \/ owner rest = u_id user \/ u_role user = role_admin.

(** The capacity in which [user] cancels. *)
Definition actingRole (user : ReqUser) (order : Order) (rest : Restaurant) : Role :=
  if bool_decide (customer order = u_id user) then role_customer
  else if bool_decide (owner rest = u_id user) then role_restaurant
  else role_admin.

(** The authorization gate of [updateOrderStatus] for a target status name. *)
Definition mayUpdate (user : ReqUser) (order : Order) (rest : Restaurant)
    (target : string) : bool :=
  negb (includes ["confirmed"; "preparing"; "ready"; "rejected"] target
        && negb (bool_decide (owner rest = u_id user)))
  && negb (includes ["picked-up"; "on-the-way"; "delivered"] target
           && negb (isDriverOf order user)).

(** The distance from a driver at ([lat], [lng]) to the restaurant of an
    order; [None] when the restaurant or one of its coordinates is missing. *)
Definition distanceTo (db : Store) (lat lng : R) (o : Order) : option R :=
  match findById rid (restaurant o) (restaurants db) with
  | Some rest =>
      match r_coordinates rest with
      | Some coordinates =>
          match coordinates !! 1%nat, coordinates !! 0%nat with
          | Some rlat, Some rlng => Some (calculateDistance lat lng rlat rlng)
          | _, _ => None
          end
      | None => None
      end
  | None => None
  end.

(** The restaurant of an order exists and has stored coordinates. *)
Definition located (db : Store) (o : Order) : bool :=
  match findById rid (restaurant o) (restaurants db) with
  | Some rest => bool_decide (is_Some (r_coordinates rest))
  | None => false
  end.



(** The orders fetched by the query whose restaurant is at most 10 km away,
    in storage order. *)
Definition nearby (db : Store) (lat lng : R) : list Candidate :=
  omap (fun o => match distanceTo db lat lng o with
                 | Some d => if decide (d <= 10)%R
                             then Some {| c_order := o; distance := d |}
                             else None
                 | None => None
                 end)
       (findReady db).

(** The comparison that [(a, b) => a.distance - b.distance] induces. *)
Definition byDistance (a b : Candidate) : bool :=
  bool_decide (distance a <= distance b)%R.

(** The candidates as the specification describes them: every ready,
    unassigned order within the radius, by distance and then by creation
    time. *)
Definition isCandidate (db : Store) (lat lng radius : R) (o : Order) : Prop :=
  o ∈ orders db /\ status o = ready /\ driver o = None
  /\ exists d, distanceTo db lat lng o = Some d /\ (d <= radius)%R.


(** The identifiers of the orders that a listing returned. *)
Definition listedIds (r : Response OrdersPage) : list Id :=
  match r with
  | Success _ page => map oid (pg_data page)
  | _ => []
  end.

(** The store after the restaurant rejected the order of [placed]. *)
Definition rejectedStore : Store :=
  (updateOrderStatus 2 rita 1 "rejected" (placed 1)).2.

(** The requests that write to the order collection. *)
Inductive Request :=
  | CreateOrder (env : Env) (now : Date) (random : N) (user : ReqUser)
                (body : CreateOrderBody)
  | UpdateOrderStatus (now : Date) (user : ReqUser) (orderId : Id) (target : string)
  | CancelOrder (now : Date) (user : ReqUser) (orderId : Id) (why : string)
  | AcceptOrder (now : Date) (user : ReqUser) (orderId : Id)
  | PickupOrder (now : Date) (user : ReqUser) (orderId : Id)
  | CompleteDelivery (now : Date) (user : ReqUser) (orderId : Id).

(** The store after a request. *)
Definition run (rq : Request) (db : Store) : Store :=
  match rq with
  | CreateOrder env now random user body => (createOrder env now random user body db).2
  | UpdateOrderStatus now user i target => (updateOrderStatus now user i target db).2
  | CancelOrder now user i why => (cancelOrder now user i why db).2
  | AcceptOrder now user i => (acceptOrder now user i db).2
  | PickupOrder now user i => (pickupOrder now user i db).2
  | CompleteDelivery now user i => (completeDelivery now user i db).2
  end.

(** The clock reading of a request. *)
Definition requestDate (rq : Request) : Date :=
  match rq with
  | CreateOrder _ now _ _ _ | UpdateOrderStatus now _ _ _ | CancelOrder now _ _ _
  | AcceptOrder now _ _ | PickupOrder now _ _ | CompleteDelivery now _ _ => now
  end.

(** What a request adds to the history of an order whose status goes from
    [before] to [after]. *)
Definition logged (rq : Request) (before after : Status) : list HistoryEntry :=
  if decide (after = before) then []
  else [{| h_status := after; h_timestamp := requestDate rq |}].

(** The seven statuses of a full life cycle, as the specification lists them. *)
Definition fullLifecycle : list Status :=
  [pending; confirmed; preparing; ready; assigned; picked_up; delivered].

End Spec.
Export Spec.

(** ** The remaining handlers of the delivery controller *)

Module DriverDesk.

Local Open Scope Q_scope.

(** *** [getEarnings] *)

(** The [data] of the answer. *)
Record Earnings := {
  totalEarnings : Q;
  e_totalDeliveries : nat;
  averageEarning : Q;
  e_orders : list Order
}.

(** The filter [{ driver, status: 'delivered', deliveredAt: { $gte, $lte } }];
    the range is part of it only when both dates are given. An order without
    [deliveredAt] does not match a range. *)
Definition earningsQuery (user : ReqUser) (startDate endDate : option Date)
    (o : Order) : bool :=
  bool_decide (driver o = Some (u_id user))
  && bool_decide (status o = delivered)
  && match startDate, endDate with
     | Some s, Some e =>
         match deliveredAt o with
         | Some d => (s <=? d)%N && (d <=? e)%N
         | None => false
         end
     | _, _ => true
     end.

(** A date parameter of the query string: [None] when it is absent or
    empty; otherwise what [new Date] reads from it, [Some None] being an
    Invalid Date. *)
Abbreviation DateParam := (option (option Date)) (only parsing).

(** When both parameters are given they are read with [new Date] and become
    the range of the query; Mongoose refuses to cast an Invalid Date, and
    [Order.find] throws. A parameter given alone is not read. *)
Definition getEarnings (user : ReqUser) (startDate endDate : DateParam)
    (db : Store) : Response Earnings :=
  match startDate, endDate with
  | Some None, Some _ | Some (Some _), Some None => Thrown CastError
  | _, _ =>
      let found :=
        filter (fun o => earningsQuery user (mjoin startDate) (mjoin endDate) o)
               (orders db) in
      let total :=
        fold_left (fun sum order => sum + p_driverEarnings (pricing order)) found 0 in
      let deliveries := length found in
      Success 200
        {| totalEarnings := total;
           e_totalDeliveries := deliveries;
           averageEarning :=
             if (0 <? deliveries)%nat then total / inject_Z (Z.of_nat deliveries)
             else 0;
           e_orders := found |}
  end.

(** The [data] of an answer. *)
Definition answeredEarnings (r : Response Earnings) : option Earnings :=
  match r with
  | Success _ data => Some data
  | _ => None
  end.

(** *** [toggleAvailability] *)

(** The answer carries the new flag. [driver.save()] runs the pre-save hook of
    the user schema, which returns at once when the password is not modified. *)
Definition toggleAvailability (user : ReqUser) (db : Store) : Response bool * Store :=
  match users db !! u_id user with
  | None => (Thrown TypeError, db)
  | Some driver =>
      let flag := negb (isAvailable (driverProfile driver)) in
      (Success 200 flag,
       set_users (<[u_id user := setAvailable flag driver]> (users db)) db)
  end.

(** *** [updateLocation] *)

(** [driverProfile.currentLocation.coordinates] of every user that has one:
    this field of the user collection is kept beside the store. *)
Abbreviation Locations := (gmap Id (list R)) (only parsing).

(** [!x] is false for a number other than 0. *)
Definition given (x : option R) : bool :=
  match x with
  | Some v => negb (bool_decide (v = 0%R))
  | None => false
  end.

Inductive LocationAnswer :=
  | LocationUpdated
  | LatitudeLongitudeRequired.

(** The order whose room receives the position:
    [Order.findOne({ driver, status: { $in: ['picked-up', 'on-the-way'] } })]. *)
Definition activeOrder (user : ReqUser) (db : Store) : option Order :=
  List.find (fun o => bool_decide (driver o = Some (u_id user))
                      && includes ["picked-up"; "on-the-way"] (status_name (status o)))
            (orders db).

(** The answer (status code and message), the identifier of the order whose
    room is sent [driverLocation], and the stored positions. *)
Definition updateLocation (user : ReqUser) (latitude longitude : option R)
    (db : Store) (locations : Locations)
    : (nat * LocationAnswer) * option Id * Locations :=
  match latitude, longitude with
  | Some lat, Some lng =>
      if negb (given latitude) || negb (given longitude) then
        ((400%nat, LatitudeLongitudeRequired), None, locations)
      else
        let locations' :=
          match users db !! u_id user with
          | Some _ => <[u_id user := [lng; lat]]> locations
          | None => locations
          end in
        ((200%nat, LocationUpdated), oid <$> activeOrder user db, locations')
  | _, _ => ((400%nat, LatitudeLongitudeRequired), None, locations)
  end.

End DriverDesk.
Export DriverDesk.

(** ** Vocabulary of the store invariants *)

Module Evolution.

(** A sequence of requests, served one after the other. *)
Fixpoint runAll (rqs : list Request) (db : Store) : Store :=
  match rqs with
  | [] => db
  | rq :: rest => runAll rest (run rq db)
  end.

(** What stays of an order for as long as it is stored: its identity, its
    parties, its items, its pricing snapshot and the other data of the
    placement. *)
Definition keeps (o o' : Order) : Prop :=
  oid o' = oid o
  /\ orderNumber o' = orderNumber o
  /\ customer o' = customer o
  /\ restaurant o' = restaurant o
  /\ items o' = items o
  /\ pricing o' = pricing o
  /\ deliveryAddress o' = deliveryAddress o
  /\ customerPhone o' = customerPhone o
  /\ customerName o' = customerName o
  /\ estimatedDeliveryTime o' = estimatedDeliveryTime o
  /\ isSurgeTime o' = isSurgeTime o
  /\ surgeMultiplier o' = surgeMultiplier o
  /\ createdAt o' = createdAt o.

(** The driver of an order, once set, stays. *)
Definition keepsDriver (o o' : Order) : Prop :=
  forall d, driver o = Some d -> driver o' = Some d.

(** How a request may change a stored order. *)
Definition evolves (rq : Request) (o o' : Order) : Prop :=
  keeps o o'
  /\ keepsDriver o o'
  /\ statusHistory o' = statusHistory o ++ logged rq (status o) (status o').

(** The order that a placement adds to the store [db]. *)
Definition placedIn (db : Store) (new : Order) : Prop :=
  oid new = fresh_oid (orders db)
  /\ status new = pending
  /\ statusHistory new = []
  /\ driver new = None
  /\ cancellation new = None.

(** The status that the history of an order ends with; pending when nothing
    has been logged. *)
Definition lastLogged (o : Order) : Status :=
  default pending (h_status <$> last (statusHistory o)).

(** The times of the history entries of an order. *)
Definition historyDates (o : Order) : list Date :=
  map h_timestamp (statusHistory o).

(** The histories of the stored orders are in time order and do not reach
    beyond [t]. *)
Definition historiesUpTo (t : Date) (db : Store) : Prop :=
  Forall (fun o => StronglySorted N.le (historyDates o)
                   /\ Forall (fun d => (d <= t)%N) (historyDates o))
         (orders db).


End Evolution.
Export Evolution.

(** * Properties *)

(** ** Pricing *)

Module PricingProps.

Import Doubles.
Local Open Scope float_scope.
#[local] Set Warnings "-inexact-float".

(** C2 (amended). For every item list, base delivery fee, surge flag and
    environment, the snapshot that [calculatePricing] returns has, every
    operation being one binary64 operation:
    - subtotal: the item subtotals added one after the other, from left to
      right, starting from 0 (it is 0 for no item, and an item appended to the
      list adds its subtotal to the subtotal of the list);
    - service fee = subtotal x service-fee rate;
    - delivery fee = base fee x (surge multiplier when surging, else 1);
    - total = (subtotal + delivery fee) + service fee, tax = 0, discount = 0;
    - platform commission = subtotal x commission rate + service fee;
    - restaurant earnings = subtotal - subtotal x commission rate;
    - driver earnings = delivery fee;
    where a rate is the one set in the environment, and 0.08 (service fee),
    1.5 (surge) and 0.20 (commission) when it is not set. *)
Theorem calculatePricing_spec (env : Env) (items : list OrderItem)
    (baseDeliveryFee : float) (isSurge : bool) :
  let p := calculatePricing env items baseDeliveryFee isSurge in
  let serviceFeeRate := default 0.08 (SERVICE_FEE_RATE env) in
  let surgeMultiplier := default 1.5 (SURGE_MULTIPLIER env) in
  let commissionRate := default 0.20 (COMMISSION_RATE env) in
  p_subtotal (calculatePricing env [] baseDeliveryFee isSurge) = 0
  /\ (forall item,
        p_subtotal (calculatePricing env (items ++ [item]) baseDeliveryFee isSurge)
        = p_subtotal p + subtotal item)
  /\ p_serviceFee p = p_subtotal p * serviceFeeRate
  /\ p_deliveryFee p = baseDeliveryFee * (if isSurge then surgeMultiplier else 1)
  /\ p_total p = p_subtotal p + p_deliveryFee p + p_serviceFee p
  /\ p_tax p = 0 /\ p_discount p = 0
  /\ p_platformCommission p = p_subtotal p * commissionRate + p_serviceFee p
  /\ p_restaurantEarnings p = p_subtotal p - p_subtotal p * commissionRate
  /\ p_driverEarnings p = p_deliveryFee p.
Proof.
  cbv zeta. unfold calculatePricing.
  cbn [p_subtotal p_serviceFee p_deliveryFee p_total p_tax p_discount
       p_platformCommission p_restaurantEarnings p_driverEarnings].
  split; [done|]. split.
  { intros item. by rewrite fold_left_app. }
  destruct env as [[s|] [m|] [c|]]; cbn [SERVICE_FEE_RATE SURGE_MULTIPLIER
    COMMISSION_RATE env_or default]; by repeat split.
Qed.

(** C2, as stated, fails in two places. With the default commission rate and
    one item of subtotal 12, the restaurant earnings are 12 - 12 x 0.2 = 9.6,
    which is not 12 x (1 - 0.2) = 9.600000000000001. And the subtotal is not
    a function of the subtotals that are summed: 0.1, 0.2 and 0.3 give
    0.6000000000000001 in this order and 0.6 in the reverse order. *)
Lemma calculatePricing_rounding :
  (let p := calculatePricing unset [itemOf 12] 3 false in
   p_subtotal p = 12
   /\ p_restaurantEarnings p = 9.6
   /\ p_subtotal p * (1 - 0.2) = 9.600000000000001
   /\ p_restaurantEarnings p <> p_subtotal p * (1 - 0.2))
  /\ (let p := calculatePricing unset [itemOf 0.1; itemOf 0.2; itemOf 0.3] 3 false in
      let p' := calculatePricing unset [itemOf 0.3; itemOf 0.2; itemOf 0.1] 3 false in
      p_subtotal p = 0.6000000000000001
      /\ p_subtotal p' = 0.6
      /\ p_subtotal p <> p_subtotal p').
Proof.
  cbv zeta. split.
  - split; [reflexivity|]. split; [reflexivity|]. split; [reflexivity|].
    intros H. apply (f_equal (fun x => x =? 9.6)) in H.
    vm_compute in H. discriminate H.
  - split; [reflexivity|]. split; [reflexivity|].
    intros H. apply (f_equal (fun x => x =? 0.6)) in H.
    vm_compute in H. discriminate H.
Qed.

(** The snapshot of one burger at 12.00 with a delivery fee of 3.00 and no
    rate set; the commission, 12 x 0.2 + 0.96, is 3.3600000000000003. *)
Example burger_pricing :
  calculatePricing unset [itemOf 12] 3 false
  = {| p_subtotal := 12; p_deliveryFee := 3; p_serviceFee := 0.96;
       p_tax := 0; p_discount := 0; p_total := 15.96;
       p_platformCommission := 3.3600000000000003;
       p_restaurantEarnings := 9.6; p_driverEarnings := 3 |}.
Proof. reflexivity. Qed.

(** A base fee of 3.00 under surge, with the default multiplier 1.5, is 4.50. *)
Example surge_delivery_fee :
  p_deliveryFee (calculatePricing unset [] 3 true) = 4.5.
Proof. reflexivity. Qed.

End PricingProps.

(** ** Collections and [save] *)

Module StoreProps.

Lemma findById_key {A} (key : A -> Id) i l d :
  findById key i l = Some d -> key d = i.
Proof.
  unfold findById. intros H. apply find_some in H as [_ H].
  by apply bool_decide_eq_true in H.
Qed.

Lemma findById_In {A} (key : A -> Id) i l d :
  findById key i l = Some d -> d ∈ l.
Proof.
  unfold findById. intros H. apply find_some in H as [H _].
  by apply list_elem_of_In.
Qed.

Lemma findById_app {A} (key : A -> Id) i l1 l2 d :
  findById key i l1 = Some d -> findById key i (l1 ++ l2) = Some d.
Proof.
  unfold findById. induction l1 as [|x l1 IH]; simpl; [done|].
  destruct (bool_decide (key x = i)); auto.
Qed.

(** Reading back after a write that keeps identifiers. *)
Lemma findById_updateById {A} (key : A -> Id) i j (f : A -> A) l :
  (forall d, key d = j -> key (f d) = j) ->
  findById key i (updateById key j f l)
  = if bool_decide (i = j) then f <$> findById key i l else findById key i l.
Proof.
  intros Hkey. unfold findById, updateById.
  induction l as [|x l IH]; simpl.
  - by destruct (bool_decide (i = j)).
  - destruct (bool_decide (key x = j)) eqn:Exj.
    + apply bool_decide_eq_true in Exj.
      destruct (bool_decide (key x = i)) eqn:Exi.
      * apply bool_decide_eq_true in Exi.
        rewrite (bool_decide_eq_true_2 (key (f x) = i))
          by (rewrite Hkey; congruence).
        rewrite (bool_decide_eq_true_2 (i = j)) by congruence. done.
      * apply bool_decide_eq_false in Exi.
        rewrite (bool_decide_eq_false_2 (key (f x) = i))
          by (rewrite Hkey; congruence).
        apply IH.
    + destruct (bool_decide (key x = i)) eqn:Exi; [|apply IH].
      apply bool_decide_eq_true in Exi. apply bool_decide_eq_false in Exj.
      rewrite (bool_decide_eq_false_2 (i = j)) by congruence. done.
Qed.

Lemma preSave_oid loaded now o : oid (preSave loaded now o) = oid o.
Proof. unfold preSave. by destruct (bool_decide _). Qed.

Lemma preSave_status loaded now o : status (preSave loaded now o) = status o.
Proof. unfold preSave. by destruct (bool_decide _). Qed.

Lemma preSave_driver loaded now o : driver (preSave loaded now o) = driver o.
Proof. unfold preSave. by destruct (bool_decide _). Qed.

(** The hook touches [statusHistory] and nothing else. *)
Lemma preSave_fields loaded now o :
  restaurant (preSave loaded now o) = restaurant o
  /\ pricing (preSave loaded now o) = pricing o
  /\ payment (preSave loaded now o) = payment o
  /\ deliveredAt (preSave loaded now o) = deliveredAt o
  /\ cancellation (preSave loaded now o) = cancellation o.
Proof. unfold preSave. by destruct (bool_decide _). Qed.

Lemma preSave_history loaded now o :
  statusHistory (preSave loaded now o)
  = statusHistory o
    ++ (if bool_decide (status o = loaded) then []
        else [{| h_status := status o; h_timestamp := now |}]).
Proof.
  unfold preSave. destruct (bool_decide _); simpl; [|done].
  by rewrite app_nil_r.
Qed.

(** After [persist], the stored document is the saved one, and the other
    documents and collections are as before. *)
Lemma persist_lookup o db i :
  findById oid i (orders (persist o db))
  = if bool_decide (i = oid o)
    then (fun _ => o) <$> findById oid i (orders db)
    else findById oid i (orders db).
Proof. unfold persist; simpl. by apply findById_updateById. Qed.

Lemma persist_lookup_same o db d :
  findById oid (oid o) (orders db) = Some d ->
  findById oid (oid o) (orders (persist o db)) = Some o.
Proof.
  intros H. rewrite persist_lookup, bool_decide_eq_true_2 by done.
  by rewrite H.
Qed.

Lemma persist_users o db : users (persist o db) = users db.
Proof. done. Qed.

Lemma persist_restaurants o db : restaurants (persist o db) = restaurants db.
Proof. done. Qed.

Lemma persist_menuItems o db : menuItems (persist o db) = menuItems db.
Proof. done. Qed.

End StoreProps.
Import StoreProps.

(** ** The stable sort *)

Module SortProps.

Section sort_by.
Context {A : Type} (le : A -> A -> bool).

Lemma insert_by_Permutation x l : insert_by le x l ≡ₚ x :: l.
Proof.
  induction l as [|y l IH]; simpl; [done|].
  destruct (le x y); [done|].
  rewrite IH. apply Permutation_swap.
Qed.

Lemma sort_by_Permutation l : sort_by le l ≡ₚ l.
Proof.
  induction l as [|x l IH]; simpl; [done|].
  rewrite insert_by_Permutation. by rewrite IH.
Qed.

Lemma sort_by_length l : length (sort_by le l) = length l.
Proof. by rewrite sort_by_Permutation. Qed.

Lemma sort_by_elem_of x l : x ∈ sort_by le l <-> x ∈ l.
Proof. by rewrite sort_by_Permutation. Qed.

Hypothesis le_total : forall x y, le x y = false -> le y x = true.
Hypothesis le_trans : forall x y z, le x y = true -> le y z = true -> le x z = true.

Lemma insert_by_sorted x l :
  StronglySorted (fun a b => le a b = true) l ->
  StronglySorted (fun a b => le a b = true) (insert_by le x l).
Proof.
  induction 1 as [|y l Hl IH Hy]; simpl.
  - repeat constructor.
  - destruct (le x y) eqn:Hxy.
    + constructor; [by constructor|].
      constructor; [done|].
      eapply Forall_impl; [exact Hy|]. intros z Hz. by eapply le_trans.
    + constructor; [done|].
      rewrite insert_by_Permutation. constructor; [|done].
      by apply le_total.
Qed.

Lemma sort_by_sorted l : StronglySorted (fun a b => le a b = true) (sort_by le l).
Proof.
  induction l as [|x l IH]; simpl; [constructor|].
  by apply insert_by_sorted.
Qed.

End sort_by.

Lemma StronglySorted_weaken {A} (R1 R2 : A -> A -> Prop) l :
  (forall x y, R1 x y -> R2 x y) -> StronglySorted R1 l -> StronglySorted R2 l.
Proof.
  intros HR. induction 1 as [|x l _ IH Hx]; constructor; [done|].
  eapply Forall_impl; [exact Hx|]. auto.
Qed.

(** Stability: elements that the order does not separate keep their relative
    position. [P] picks such a class of elements. *)
Section stable.
Context {A : Type} (le : A -> A -> bool) (P : A -> Prop) `{!forall x, Decision (P x)}.
Hypothesis same_class : forall x y, P x -> P y -> le x y = true.



End stable.

(** Sorting a list that is in order for a second criterion: elements that the
    comparison does not separate come out in the order of that criterion. *)
Section second_criterion.
Context {A : Type} (le : A -> A -> bool) (before : A -> A -> Prop).
Hypothesis le_total : forall x y, le x y = false -> le y x = true.
Hypothesis le_trans : forall x y z, le x y = true -> le y z = true -> le x z = true.

Local Abbreviation thenBy :=
  (fun a b => le b a = false \/ (le a b = true /\ le b a = true /\ before a b)).



End second_criterion.




End SortProps.
Import SortProps.

(** ** The order controller *)

Module OrderProps.

Local Open Scope Q_scope.

(** *** Placement *)

(** A placement that is refused leaves the store as it was. *)
Lemma createOrder_failure_keeps_store env now random user body db :
  is_success (createOrder env now random user body db).1 = false ->
  (createOrder env now random user body db).2 = db.
Proof.
  unfold createOrder.
  destruct (findById rid _ _) as [rest|]; [|done].
  destruct (negb _ || negb _); [done|].
  destruct (paymentMethod_of_string _); [|done].
  destruct (buildOrderItems _ _ _); [done|].
  destruct (Qlt_le_dec _ _); [done|].
  destruct (if b_isSurgeTime body then _ else _); [|done].
  destruct (negb (validNewOrder _ _ _)); done.
Qed.

(** C8. A placement whose subtotal, computed from the menu prices, is
    strictly below the minimum order of the restaurant is refused with the
    status 400 and the message "Minimum order amount is ...", and the store is
    left unchanged: no order is created. *)
Theorem createOrder_below_minimum env now random user body db rest orderItems :
  findById rid (b_restaurant body) (restaurants db) = Some rest ->
  r_isActive rest = true ->
  r_isOpen rest = true ->
  is_Some (paymentMethod_of_string (b_paymentMethod body)) ->
  buildOrderItems db (b_items body) [] = inr orderItems ->
  p_subtotal (calculatePricing env orderItems (deliveryFee rest) (b_isSurgeTime body))
    < minimumOrder rest ->
  createOrder env now random user body db
  = (Failure 400 (MinimumOrderAmount (minimumOrder rest)), db).
Proof.
  intros Hrest Hactive Hopen [pm Hpm] Hitems Hlow.
  unfold createOrder. rewrite Hrest, Hactive, Hopen, Hpm, Hitems. simpl.
  destruct (Qlt_le_dec _ _) as [_|Hge]; [done|].
  exfalso. eapply Qlt_not_le; eauto.
Qed.

(** A salad at 8.00 against the minimum of 10.00. *)
Lemma createOrder_below_minimum_witness :
  createOrder env0 1 7 alice (oneOf 101) db0
  = (Failure 400 (MinimumOrderAmount 10), db0).
Proof.
  apply (createOrder_below_minimum env0 1 7 alice (oneOf 101) db0 r1
           [{| menuItem := 101; name := "salad"; price := 8; quantity := 1;
               customizations := []; specialInstructions := "";
               subtotal := 8 * 1 |}]).
  - reflexivity.
  - reflexivity.
  - reflexivity.
  - exists cash. reflexivity.
  - reflexivity.
  - reflexivity.
Defined.

(** *** Cancellation *)

Lemma cancellable_eq (s : Status) :
  cancellable s = match s with delivered | cancelled => false | _ => true end.
Proof. by destruct s. Qed.

Lemma cancellable_iff (s : Status) :
  cancellable s = true <-> s <> delivered /\ s <> cancelled.
Proof.
  rewrite cancellable_eq.
  destruct s; split; try done; intros [? ?]; congruence.
Qed.

Lemma actingRole_mayCancel user order rest :
  negb (bool_decide (customer order = u_id user))
  && negb (bool_decide (owner rest = u_id user))
  && negb (bool_decide (u_role user = role_admin)) = false
  <-> mayCancel user order rest.
Proof.
  unfold mayCancel.
  repeat case_bool_decide; simpl; split; try done; tauto.
Qed.

(** C6 (amended). [cancelOrder] succeeds exactly when the order exists, its
    status is neither delivered nor cancelled (so from pending, confirmed,
    preparing, ready, assigned, picked-up, on-the-way and also rejected), its
    restaurant exists, and the caller is the customer of the order, the owner
    of the restaurant or an administrator. On success the stored order has
    status cancelled and the cancellation record {reason, cancelledBy,
    cancelledAt}, where cancelledBy is customer for the customer, else
    restaurant for the owner, else admin. A refused cancellation leaves the
    store unchanged. *)
Theorem cancelOrder_spec now user orderId why db :
  let r := cancelOrder now user orderId why db in
  (is_success r.1 = true <->
   exists order rest,
     findById oid orderId (orders db) = Some order
     /\ (status order <> delivered /\ status order <> cancelled)
     /\ findById rid (restaurant order) (restaurants db) = Some rest
     /\ mayCancel user order rest)
  /\ (forall order rest,
        findById oid orderId (orders db) = Some order ->
        findById rid (restaurant order) (restaurants db) = Some rest ->
        is_success r.1 = true ->
        exists saved,
          r.1 = Success 200 saved
          /\ findById oid orderId (orders r.2) = Some saved
          /\ status saved = cancelled
          /\ cancellation saved
             = Some {| reason := why;
                       cancelledBy := actingRole user order rest;
                       cancelledAt := now |})
  /\ (is_success r.1 = false -> r.2 = db).
Proof.
  cbv zeta. unfold cancelOrder.
  destruct (findById oid orderId (orders db)) as [order|] eqn:Horder.
  2:{ simpl. split; [|split]; try done. split; [done|]. by intros (? & ? & ? & _). }
  pose proof (cancellable_iff (status order)) as Hc. unfold cancellable in Hc.
  destruct (includes ["delivered"; "cancelled"] (status_name (status order))).
  { simpl in *. split; [|split]; try done. split; [done|].
    intros (o & rest & Ho & Hs & _). simplify_eq. by apply Hc in Hs. }
  destruct (findById rid (restaurant order) (restaurants db)) as [rest|] eqn:Hrest.
  2:{ simpl. split; [|split]; try done. split; [done|].
      intros (o & rest & Ho & _ & Hr & _). simplify_eq. }
  pose proof (actingRole_mayCancel user order rest) as Hm.
  destruct (negb (bool_decide (customer order = u_id user))
            && negb (bool_decide (owner rest = u_id user))
            && negb (bool_decide (u_role user = role_admin))) eqn:Hgate.
  { simpl. split; [|split]; try done. split; [done|].
    intros (o & rest' & Ho & _ & Hr & Hmay). simplify_eq.
    apply Hm in Hmay. done. }
  cbn [fst snd is_success]. split; [|split]; try done.
  - split; [|done]. intros _. exists order, rest.
    repeat split; try done; try (apply Hc; done). by apply Hm.
  - intros o rest' Ho Hr _. injection Ho as <-.
    rewrite Hrest in Hr. injection Hr as <-.
    eexists. split; [done|].
    pose proof (findById_key _ _ _ _ Horder) as Hid.
    rewrite persist_lookup, preSave_oid; simpl.
    rewrite bool_decide_eq_true_2 by done. rewrite Horder; simpl.
    rewrite preSave_status. unfold preSave.
    split; [done|]. split; [done|].
    unfold actingRole. by destruct (bool_decide (status _ = _)).
Qed.

(** Cancelling the pending order of [placed] as its customer, with the reason
    "changed mind", records [cancelledBy = customer]. *)
Example cancel_pending_as_customer :
  (cancellation <$> findById oid 1
     (orders (cancelOrder 2 alice 1 "changed mind" (placed 1)).2))
  = Some (Some {| reason := "changed mind"; cancelledBy := role_customer;
                  cancelledAt := 2%N |}).
Proof. vm_compute. reflexivity. Qed.

(** C6, as stated, fails: the rejected order of [rejectedStore] is cancelled by
    its customer. *)
Lemma cancelOrder_from_rejected :
  storedStatus 1 rejectedStore = Some rejected
  /\ answeredStatus (cancelOrder 3 alice 1 "changed mind" rejectedStore).1
     = Some cancelled
  /\ storedStatus 1 (cancelOrder 3 alice 1 "changed mind" rejectedStore).2
     = Some cancelled.
Proof. vm_compute. repeat split; reflexivity. Qed.

(** *** Listing *)

(** What [getOrders] returns is taken from the stored orders that match the
    query. *)
Lemma getOrders_data_matches user q db page o :
  getOrders user q db = Success 200 page ->
  o ∈ pg_data page ->
  o ∈ orders db /\ matchesFilter (buildQuery user q db) o = true.
Proof.
  unfold getOrders. destruct (_ <? 0)%Z; [done|].
  intros [= <-]. cbn [pg_data]. intros Ho.
  assert (o ∈ filter (fun o => matchesFilter (buildQuery user q db) o) (orders db))
    as Hin.
  { apply (sort_by_elem_of (fun a b => createdAt b <=? createdAt a)%N).
    apply (subseteq_drop (Z.to_nat ((q_page q - 1) * q_limit q))).
    unfold limitTo in Ho. destruct (q_limit q =? 0)%Z; [done|].
    by apply (subseteq_take (Z.abs_nat (q_limit q))). }
  apply list_elem_of_filter in Hin as [Hm Hin]. split; [done|].
  by apply Is_true_true.
Qed.

(** A customer is shown only orders placed by them, a driver only orders
    assigned to them, and the owner of a restaurant only orders of the
    restaurant that [findOne] returns. *)
Lemma getOrders_scoped user q db page o :
  getOrders user q db = Success 200 page ->
  o ∈ pg_data page ->
  match u_role user with
  | role_customer => customer o = u_id user
  | role_driver => driver o = Some (u_id user)
  | role_restaurant =>
      forall rest,
        List.find (fun r => bool_decide (owner r = u_id user)) (restaurants db)
        = Some rest ->
        restaurant o = rid rest /\ owner rest = u_id user
  | role_admin => True
  end.
Proof.
  intros Hpage Ho.
  destruct (getOrders_data_matches _ _ _ _ _ Hpage Ho) as [_ Hm].
  unfold matchesFilter, buildQuery in Hm.
  destruct (u_role user); [| |  |done].
  - cbn in Hm. rewrite !andb_true_iff in Hm. destruct Hm as [[[Hm _] _] _].
    by apply bool_decide_eq_true in Hm.
  - intros rest Hrest. rewrite Hrest in Hm. cbn in Hm.
    rewrite !andb_true_iff in Hm. destruct Hm as [[Hm _] _].
    apply bool_decide_eq_true in Hm. split; [done|].
    apply find_some in Hrest as [_ Hrest]. by apply bool_decide_eq_true in Hrest.
  - cbn in Hm. rewrite !andb_true_iff in Hm. destruct Hm as [Hm _].
    by apply bool_decide_eq_true in Hm.
Qed.

(** With a positive limit, a page skips [(page - 1) x limit] orders of the
    sorted result and holds at most [limit] orders. *)
Lemma getOrders_page user q db page :
  (0 < q_limit q)%Z ->
  getOrders user q db = Success 200 page ->
  pg_data page
  = take (Z.to_nat (q_limit q))
      (drop (Z.to_nat ((q_page q - 1) * q_limit q))
         (sort_by (fun a b => createdAt b <=? createdAt a)%N
            (filter (fun o => matchesFilter (buildQuery user q db) o) (orders db))))
  /\ (Z.of_nat (length (pg_data page)) <= q_limit q)%Z.
Proof.
  intros Hlimit. unfold getOrders. destruct (_ <? 0)%Z; [done|].
  intros [= <-]. cbn [pg_data]. unfold limitTo.
  rewrite (proj2 (Z.eqb_neq _ _)) by lia.
  rewrite Zabs2Nat.abs_nat_nonneg by lia.
  split; [done|]. rewrite length_take. lia.
Qed.

(** C9: a caller with the restaurant role who owns no restaurant. Omar owns
    none, the stored order 1 belongs to restaurant 1, whose owner is user 10,
    and [getOrders] shows it to Omar. *)
Theorem getOrders_restaurant_role_without_restaurant :
  u_role omar = role_restaurant
  /\ List.find (fun r => bool_decide (owner r = u_id omar)) (restaurants (placed 1))
     = None
  /\ (restaurant <$> findById oid 1 (orders (placed 1))) = Some 1%nat
  /\ (owner <$> findById rid 1 (restaurants (placed 1))) = Some 10%nat
  /\ listedIds (getOrders omar default_query (placed 1)) = [1%nat].
Proof. vm_compute. repeat split. Qed.

End OrderProps.

(** ** The delivery controller *)

Module DeliveryProps.

(** *** Assignment *)

(** C3 (amended). [acceptOrder] succeeds exactly when the order exists, its
    status is ready and it has no driver. It answers 404 "Order not found"
    when the order does not exist; 400 "Order is not ready for pickup" when
    the status is not ready, whether or not a driver is set; and 400 "Order
    already assigned to another driver" only when the status is ready and a
    driver is set. In these cases the store is unchanged. On success the
    stored order has the caller as its driver and the status assigned, and
    the availability flag of the caller's profile is false. *)
Theorem acceptOrder_spec now user orderId db :
  let r := acceptOrder now user orderId db in
  (is_success r.1 = true <->
   exists order, findById oid orderId (orders db) = Some order
                 /\ status order = ready /\ driver order = None)
  /\ (findById oid orderId (orders db) = None ->
      r = (Failure 404 OrderNotFound, db))
  /\ (forall order,
        findById oid orderId (orders db) = Some order ->
        status order <> ready ->
        r = (Failure 400 OrderNotReady, db))
  /\ (forall order,
        findById oid orderId (orders db) = Some order ->
        status order = ready ->
        is_Some (driver order) ->
        r = (Failure 400 OrderAlreadyAssigned, db))
  /\ (forall order,
        findById oid orderId (orders db) = Some order ->
        status order = ready ->
        driver order = None ->
        exists saved,
          r.1 = Success 200 saved
          /\ findById oid orderId (orders r.2) = Some saved
          /\ driver saved = Some (u_id user)
          /\ status saved = assigned
          /\ users r.2 !! u_id user = setAvailable false <$> users db !! u_id user
          /\ (forall u, users r.2 !! u_id user = Some u ->
                        isAvailable (driverProfile u) = false)).
Proof.
  cbv zeta. unfold acceptOrder.
  destruct (findById oid orderId (orders db)) as [order|] eqn:Horder.
  2:{ cbn [fst snd is_success]. repeat split; try done.
      by intros (? & ? & _). }
  destruct (decide (status order = ready)) as [Hready|Hready].
  2:{ rewrite (bool_decide_eq_false_2 _ Hready). cbn [negb fst snd is_success].
      repeat split; try done.
      - intros (o & Ho & Hs & _). by simplify_eq.
      - intros o Ho Hs. by simplify_eq. 
      - intros o Ho Hs. by simplify_eq. }
  rewrite (bool_decide_eq_true_2 _ Hready). cbn [negb].
  destruct (driver order) as [d|] eqn:Hdriver.
  { rewrite bool_decide_eq_true_2 by by eexists.
    cbn [fst snd is_success]. repeat split; try done.
    - intros (o & Ho & _ & Hd). simplify_eq. 
    - intros o Ho Hs. by simplify_eq.
    - intros o Ho _ Hd. simplify_eq. }
  rewrite bool_decide_eq_false_2 by (by intros [? ?]).
  cbn [fst snd is_success]. repeat split; try done.
  - intros _. by exists order.
  - intros o Ho Hs. by simplify_eq.
  - intros o Ho _ [d Hd]. simplify_eq.
  - intros o Ho _ _. injection Ho as <-.
    pose proof (findById_key _ _ _ _ Horder) as Hid.
    eexists. split; [done|].
    cbn [orders users set_users].
    rewrite persist_lookup, preSave_oid, preSave_driver, preSave_status.
    cbn [oid set_status set_driver driver status users set_users].
    rewrite bool_decide_eq_true_2 by done. rewrite Horder.
    repeat split; try done.
    + apply lookup_alter_eq.
    + rewrite lookup_alter_eq, persist_users. intros u Hu.
      destruct (users db !! u_id user) as [u0|]; by simplify_eq/=.
Qed.

(** The four answers of [acceptOrder] in the marketplace of [db0]. Dan is
    given the ready order 1: it is stored with him as driver and the status
    assigned, and he is no longer available. An unknown order is answered 404;
    an order that is only placed is answered "not ready"; and the order that
    Dan took and that the restaurant then set back to ready (no transition is
    checked) is answered "already assigned" to Dora. *)
Lemma acceptOrder_spec_witness :
  (exists saved,
     (acceptOrder 5 dan 1 (madeReady 1 2 3 4)).1 = Success 200 saved
     /\ findById oid 1 (orders (acceptOrder 5 dan 1 (madeReady 1 2 3 4)).2)
        = Some saved
     /\ driver saved = Some 30%nat
     /\ status saved = assigned
     /\ (forall u, users (acceptOrder 5 dan 1 (madeReady 1 2 3 4)).2 !! 30%nat = Some u ->
                   isAvailable (driverProfile u) = false))
  /\ acceptOrder 5 dan 99 (madeReady 1 2 3 4)
     = (Failure 404 OrderNotFound, madeReady 1 2 3 4)
  /\ acceptOrder 5 dan 1 (placed 1) = (Failure 400 OrderNotReady, placed 1)
  /\ (let reopened := (updateOrderStatus 6 rita 1 "ready" (accepted 1 2 3 4 5)).2 in
      acceptOrder 7 dora 1 reopened = (Failure 400 OrderAlreadyAssigned, reopened)).
Proof.
  split; [|split; [|split]].
  - pose proof (acceptOrder_spec 5 dan 1 (madeReady 1 2 3 4)) as H.
    cbv zeta in H. destruct H as (_ & _ & _ & _ & Hok).
    destruct (findById oid 1 (orders (madeReady 1 2 3 4))) as [order|] eqn:Ho;
      [|by vm_compute in Ho].
    assert (status order = ready /\ driver order = None) as [Hs Hd].
    { vm_compute in Ho. injection Ho as <-. done. }
    destruct (Hok order eq_refl Hs Hd) as (saved & E & Hf & Hdr & Hst & _ & Hav).
    exists saved. by repeat split.
  - pose proof (acceptOrder_spec 5 dan 99 (madeReady 1 2 3 4)) as H.
    cbv zeta in H. destruct H as (_ & Hnone & _).
    apply Hnone. reflexivity.
  - pose proof (acceptOrder_spec 5 dan 1 (placed 1)) as H.
    cbv zeta in H. destruct H as (_ & _ & Hnot & _).
    destruct (findById oid 1 (orders (placed 1))) as [order|] eqn:Ho;
      [|by vm_compute in Ho].
    apply (Hnot order eq_refl).
    vm_compute in Ho. injection Ho as <-. done.
  - cbv zeta.
    pose proof (acceptOrder_spec 7 dora 1
                  (updateOrderStatus 6 rita 1 "ready" (accepted 1 2 3 4 5)).2) as H.
    cbv zeta in H. destruct H as (_ & _ & _ & Htaken & _).
    assert (exists order,
              findById oid 1
                (orders (updateOrderStatus 6 rita 1 "ready" (accepted 1 2 3 4 5)).2)
              = Some order
              /\ status order = ready /\ driver order = Some 30%nat)
      as (order & Ho & Hs & Hd)
      by (vm_compute; eexists; repeat split).
    apply (Htaken order Ho Hs). by eexists.
Defined.

(** C3, as stated, fails: an order that a driver has taken has a driver set,
    and a second driver who accepts it is answered "Order is not ready for
    pickup", not "Order already assigned to another driver". The status is
    looked at before the driver, and taking an order changes both. *)
Lemma acceptOrder_taken_is_not_ready :
  (driver <$> findById oid 1 (orders (accepted 1 2 3 4 5))) = Some (Some 30%nat)
  /\ storedStatus 1 (accepted 1 2 3 4 5) = Some assigned
  /\ acceptOrder 6 dora 1 (accepted 1 2 3 4 5)
     = (Failure 400 OrderNotReady, accepted 1 2 3 4 5)
  /\ (acceptOrder 6 dora 1 (accepted 1 2 3 4 5)).1
     <> Failure 400 OrderAlreadyAssigned.
Proof. vm_compute. repeat split. discriminate. Qed.

(** The four answers of [acceptOrder] in the marketplace of [db0]: an unknown
    order, the order before it is ready, the ready order, and the order that
    another request has already taken (its status is no longer ready). *)
Example acceptOrder_answers :
  (acceptOrder 5 dan 99 (madeReady 1 2 3 4)).1 = Failure 404 OrderNotFound
  /\ (acceptOrder 5 dan 1 (placed 1)).1 = Failure 400 OrderNotReady
  /\ answeredStatus (acceptOrder 5 dan 1 (madeReady 1 2 3 4)).1 = Some assigned
  /\ (driver <$> findById oid 1 (orders (accepted 1 2 3 4 5))) = Some (Some 30%nat)
  /\ (isAvailable ∘ driverProfile <$> users (accepted 1 2 3 4 5) !! 30%nat)
     = Some false
  /\ (acceptOrder 6 dan 1 (accepted 1 2 3 4 5)).1 = Failure 400 OrderNotReady.
Proof. vm_compute. repeat split. Qed.

(** *** Distance *)

Local Open Scope R_scope.

Arguments calculateDistance : simpl never.

Lemma atan2_0_1 : atan2 0 1 = 0.
Proof.
  unfold atan2. destruct (decide (0 < 1)) as [_|H]; [|lra].
  replace (0 / 1) with 0 by lra. apply atan_0.
Qed.

(** A restaurant at the driver's position is at distance 0. *)
Lemma calculateDistance_same lat lon : calculateDistance lat lon lat lon = 0.
Proof.
  unfold calculateDistance.
  replace ((lat - lat) * PI / 180 / 2) with 0 by lra.
  replace ((lon - lon) * PI / 180 / 2) with 0 by lra.
  rewrite sin_0.
  replace (0 * 0 + cos (lat * PI / 180) * cos (lat * PI / 180) * 0 * 0)
    with 0 by lra.
  replace (1 - 0) with 1 by lra.
  rewrite sqrt_0, sqrt_1, atan2_0_1. lra.
Qed.


(** The quantity under the square roots lies between 0 and 1. *)
Lemma haversine_a_bounds (p1 p2 dl : R) :
  0 <= sin ((p2 - p1) / 2) * sin ((p2 - p1) / 2)
       + cos p1 * cos p2 * sin (dl / 2) * sin (dl / 2) <= 1.
Proof.
  pose proof (cos_2a_sin ((p2 - p1) / 2)) as Hd.
  replace (2 * ((p2 - p1) / 2)) with (p2 - p1) in Hd by lra.
  pose proof (cos_minus p2 p1) as Hm. pose proof (cos_plus p2 p1) as Hp.
  pose proof (COS_bound (p2 - p1)) as [Hd1 Hd2].
  pose proof (COS_bound (p2 + p1)) as [Hs1 Hs2].
  pose proof (SIN_bound (dl / 2)) as [Ht1 Ht2].
  set (D := cos (p2 - p1)) in *. set (S := cos (p2 + p1)) in *.
  set (t := sin (dl / 2)) in *. set (s := sin ((p2 - p1) / 2)) in *.
  assert (cos p1 * cos p2 = (D + S) / 2) as Hcc by lra.
  assert (s * s = (1 - D) / 2) as Hss by lra.
  assert (0 <= t * t <= 1) as [Htt1 Htt2] by nra.
  replace (s * s + cos p1 * cos p2 * t * t)
    with ((1 - D) / 2 + (D + S) / 2 * (t * t)) by (rewrite Hss, <- Hcc; ring).
  split; nra.
Qed.

(** [calculateDistance] is the haversine formula: in the arithmetic of the
    reals, the [atan2] form that the code uses agrees with the [asin] form. *)
Lemma calculateDistance_haversine lat1 lon1 lat2 lon2 :
  calculateDistance lat1 lon1 lat2 lon2 = haversine lat1 lon1 lat2 lon2.
Proof.
  unfold calculateDistance, haversine. cbv zeta. unfold Rsqr.
  set (a := sin ((lat2 - lat1) * PI / 180 / 2) * sin ((lat2 - lat1) * PI / 180 / 2)
            + cos (lat1 * PI / 180) * cos (lat2 * PI / 180)
              * sin ((lon2 - lon1) * PI / 180 / 2)
              * sin ((lon2 - lon1) * PI / 180 / 2)).
  replace (sin ((lat2 - lat1) * PI / 180 / 2) * sin ((lat2 - lat1) * PI / 180 / 2)
           + cos (lat1 * PI / 180) * cos (lat2 * PI / 180)
             * (sin ((lon2 - lon1) * PI / 180 / 2)
                * sin ((lon2 - lon1) * PI / 180 / 2)))
    with a by (unfold a; ring).
  assert (0 <= a <= 1) as [Ha0 Ha1].
  { unfold a.
    replace ((lat2 - lat1) * PI / 180) with (lat2 * PI / 180 - lat1 * PI / 180)
      by lra.
    apply haversine_a_bounds. }
  assert (atan2 (sqrt a) (sqrt (1 - a)) = asin (sqrt a)) as ->; [|ring].
  unfold atan2, asin.
  pose proof (sqrt_pos a) as Hsa.
  destruct (Rle_dec (sqrt a) (-1)) as [H|_]; [lra|].
  destruct (Rle_dec 1 (sqrt a)) as [H1|H1].
  - assert (a = 1) as ->.
    { apply Rle_antisym; [done|]. rewrite <- (Rsqr_sqrt a) by done.
      unfold Rsqr. nra. }
    replace (1 - 1) with 0 by lra. rewrite sqrt_0, sqrt_1.
    destruct (decide (0 < 0)) as [H|_]; [lra|].
    destruct (decide (0 < 0)) as [H|_]; [lra|].
    destruct (decide (0 < 1)) as [_|H]; [done|lra].
  - assert (a < 1) as Hlt.
    { destruct (Rle_lt_or_eq_dec _ _ Ha1) as [H|H]; [done|].
      rewrite H, sqrt_1 in H1. lra. }
    assert (0 < sqrt (1 - a)) as Hpos by (apply sqrt_lt_R0; lra).
    destruct (decide (0 < sqrt (1 - a))) as [_|H]; [|lra].
    fold (Rsqr (sqrt a)). by rewrite Rsqr_sqrt.
Qed.



(** *** The candidate query *)

Lemma withDistance_distanceTo db lat lng o y :
  withDistance db lat lng o = Some y -> y = (o, distanceTo db lat lng o).
Proof.
  unfold withDistance, distanceTo.
  destruct (findById rid (restaurant o) (restaurants db)) as [rest|]; [|done].
  destruct (r_coordinates rest); [|done].
  by intros [= <-].
Qed.

Lemma omap_withinTen db lat lng l mapped :
  mapM (withDistance db lat lng) l = Some mapped ->
  omap withinTen mapped
  = omap (fun o => match distanceTo db lat lng o with
                   | Some d => if decide (d <= 10)
                               then Some {| c_order := o; distance := d |}
                               else None
                   | None => None
                   end) l.
Proof.
  intros H%mapM_Some_1.
  induction H as [|o y l mapped Hy _ IH]; [done|].
  apply withDistance_distanceTo in Hy as ->.
  cbn [omap list_omap]. rewrite IH. done.
Qed.

(** The answer of a successful query, in closed form. *)
Lemma getAvailableOrders_Success user lat lng db found :
  getAvailableOrders user lat lng db = Success 200 found ->
  exists lat' lng',
    lat = Some lat' /\ lng = Some lng'
    /\ found = sort_by byDistance (nearby db lat' lng').
Proof.
  unfold getAvailableOrders.
  destruct (users db !! u_id user) as [u|]; [|done].
  destruct (negb _); [done|].
  destruct lat as [lat'|], lng as [lng'|]; try done.
  destruct (mapM _ _) as [mapped|] eqn:Hmap; [|done].
  intros [= <-]. exists lat', lng'. repeat split.
  unfold nearby. by rewrite (omap_withinTen _ _ _ _ _ Hmap).
Qed.

Lemma withDistance_located db lat lng o :
  is_Some (withDistance db lat lng o) <-> located db o = true.
Proof.
  unfold withDistance, located.
  destruct (findById rid (restaurant o) (restaurants db)) as [rest|].
  - destruct (r_coordinates rest) as [coordinates|].
    + rewrite bool_decide_eq_true_2 by (by eexists). split; [done|]. by eexists.
    + rewrite bool_decide_eq_false_2 by (by intros [? ?]).
      split; [by intros [? ?]|done].
  - split; [by intros [? ?]|done].
Qed.

(** The query answers when the driver is available and the restaurants of the
    fetched orders exist and have stored coordinates. *)
Lemma getAvailableOrders_answers user lat lng db u :
  users db !! u_id user = Some u ->
  isAvailable (driverProfile u) = true ->
  forallb (located db) (findReady db) = true ->
  getAvailableOrders user (Some lat) (Some lng) db
  = Success 200 (sort_by byDistance (nearby db lat lng)).
Proof.
  intros Hu Hav Hall. unfold getAvailableOrders. rewrite Hu, Hav. cbn [negb].
  destruct (mapM _ _) as [mapped|] eqn:Hmap.
  - unfold nearby. by rewrite (omap_withinTen _ _ _ _ _ Hmap).
  - exfalso. apply mapM_None_1, Exists_exists in Hmap as (o & Ho & Hnone).
    rewrite forallb_forall in Hall. apply list_elem_of_In, Hall in Ho.
    apply (withDistance_located db lat lng) in Ho as [y Hy]. congruence.
Qed.

Lemma elem_of_nearby db lat lng c :
  c ∈ nearby db lat lng
  <-> c_order c ∈ findReady db
      /\ distanceTo db lat lng (c_order c) = Some (distance c)
      /\ distance c <= 10.
Proof.
  unfold nearby. rewrite list_elem_of_omap. split.
  - intros (o & Ho & Hc).
    destruct (distanceTo db lat lng o) as [d|] eqn:Hd; [|done].
    destruct (decide (d <= 10)); [|done].
    injection Hc as <-. done.
  - intros (Ho & Hd & Hle). exists (c_order c). split; [done|].
    rewrite Hd. destruct (decide _); [|done]. by destruct c.
Qed.




Lemma omap_length_le {A B} (f : A -> option B) (l : list A) :
  (length (omap f l) <= length l)%nat.
Proof.
  induction l as [|x l IH]; [done|].
  cbn [omap list_omap]. destruct (f x); simpl; lia.
Qed.

(** *** A store with many ready orders *)

Lemma filter_readyOrder (l : list Id) :
  filter (fun o => readyUnassigned o) (map readyOrder l) = map readyOrder l.
Proof.
  induction l as [|i l IH]; [done|].
  cbn [map]. rewrite filter_cons_True by done. by rewrite IH.
Qed.

Lemma findReady_crowd n : findReady (crowd n) = map readyOrder (seq 1 (20 `min` n)).
Proof.
  unfold findReady, crowd. cbn [orders set_orders].
  rewrite filter_readyOrder. change map with (@fmap list _) at 1.
  by rewrite <- fmap_take, take_seq.
Qed.

Lemma distanceTo_crowd n i :
  distanceTo (crowd n) 0 0 (readyOrder i) = Some 0.
Proof.
  unfold distanceTo, crowd. cbn.
  rewrite bool_decide_eq_true_2 by done. cbn.
  by rewrite calculateDistance_same.
Qed.

Lemma crowd_answers n :
  getAvailableOrders dan (Some 0) (Some 0) (crowd n)
  = Success 200 (sort_by byDistance (nearby (crowd n) 0 0)).
Proof.
  apply (getAvailableOrders_answers _ _ _ _ (mkUser role_driver true)).
  - reflexivity.
  - reflexivity.
  - rewrite findReady_crowd. apply forallb_forall. intros o Ho.
    apply in_map_iff in Ho as (i & <- & _). reflexivity.
Qed.

Lemma readyOrder_isCandidate n i :
  (1 <= i <= n)%nat -> isCandidate (crowd n) 0 0 10 (readyOrder i).
Proof.
  intros Hi. split; [|split; [done|split; [done|]]].
  - unfold crowd. cbn [orders set_orders].
    apply (list_elem_of_fmap_2 readyOrder). apply elem_of_seq. lia.
  - exists 0. split; [apply distanceTo_crowd|lra].
Qed.

(** The order created last is not among the answers once the store holds
    more than twenty ready orders. *)
Lemma crowd_misses_last n found :
  (20 < n)%nat ->
  getAvailableOrders dan (Some 0) (Some 0) (crowd n) = Success 200 found ->
  readyOrder n ∉ map c_order found.
Proof.
  intros Hn Hfound Hin.
  apply getAvailableOrders_Success in Hfound as (lat & lng & _ & _ & ->).
  apply (list_elem_of_fmap c_order) in Hin as (c & Hc & Hin).
  rewrite sort_by_elem_of in Hin.
  apply elem_of_nearby in Hin as (Hin & _). rewrite findReady_crowd in Hin.
  rewrite <- Hc in Hin.
  apply list_elem_of_fmap in Hin as (i & Hi & Hseq).
  apply (f_equal oid) in Hi. cbn in Hi. subst i.
  apply elem_of_seq in Hseq. lia.
Qed.

(** *** A store with restaurants at several distances *)









(** C10. The answer of [getAvailableOrders] is drawn from the first 20 ready,
    unassigned orders of the store and so has at most 20 entries; and for
    every number [n] above 20 there is a store with [n] ready, unassigned
    orders in which an order within the radius is missing from the answer. *)
Theorem getAvailableOrders_first_twenty :
  (forall user lat lng db found,
     getAvailableOrders user lat lng db = Success 200 found ->
     (length found <= 20)%nat
     /\ forall c, c ∈ found ->
                  c_order c ∈ take 20 (filter (fun o => readyUnassigned o) (orders db)))
  /\ (forall n, (20 < n)%nat ->
       exists db o found,
         length (filter (fun o => readyUnassigned o) (orders db)) = n
         /\ isCandidate db 0 0 10 o
         /\ getAvailableOrders dan (Some 0) (Some 0) db = Success 200 found
         /\ o ∉ map c_order found).
Proof.
  split.
  - intros user lat lng db found H.
    apply getAvailableOrders_Success in H as (lat' & lng' & -> & -> & ->).
    split.
    + rewrite sort_by_length. unfold nearby.
      etrans; [apply omap_length_le|]. unfold findReady. rewrite length_take. lia.
    + intros c Hc. rewrite sort_by_elem_of in Hc.
      by apply elem_of_nearby in Hc as (Hc & _).
  - intros n Hn. exists (crowd n), (readyOrder n), (sort_by byDistance (nearby (crowd n) 0 0)).
    split; [|split; [|split]].
    + unfold crowd. cbn [orders set_orders].
      by rewrite filter_readyOrder, length_map, length_seq.
    + apply readyOrder_isCandidate. lia.
    + apply crowd_answers.
    + apply crowd_misses_last; [done|apply crowd_answers].
Qed.

(** With 25 ready orders, the 25th is missing. *)
Lemma getAvailableOrders_first_twenty_witness :
  exists db o found,
    length (filter (fun o => readyUnassigned o) (orders db)) = 25%nat
    /\ isCandidate db 0 0 10 o
    /\ getAvailableOrders dan (Some 0) (Some 0) db = Success 200 found
    /\ o ∉ map c_order found.
Proof. apply (proj2 getAvailableOrders_first_twenty 25%nat). lia. Defined.

End DeliveryProps.

(** ** The life cycle *)

Module LifecycleProps.

(** *** The status history *)

Lemma history_kept rq (db : Store) i o :
  findById oid i (orders db) = Some o ->
  exists o', findById oid i (orders db) = Some o'
             /\ statusHistory o' = statusHistory o ++ logged rq (status o) (status o').
Proof.
  intros H. exists o. split; [done|].
  unfold logged. rewrite decide_True by done. by rewrite app_nil_r.
Qed.

Lemma history_after_save rq (db : Store) i o order order' :
  findById oid i (orders db) = Some o ->
  findById oid (oid order) (orders db) = Some order ->
  oid order' = oid order ->
  statusHistory order' = statusHistory order ->
  let saved := preSave (status order) (requestDate rq) order' in
  exists o', findById oid i (orders (persist saved db)) = Some o'
             /\ statusHistory o' = statusHistory o ++ logged rq (status o) (status o').
Proof.
  intros Ho Horder Hoid Hhist saved.
  rewrite persist_lookup. unfold saved. rewrite preSave_oid, Hoid.
  case_bool_decide as Hi.
  - subst i. rewrite Horder in Ho. injection Ho as <-. rewrite Horder.
    eexists. split; [done|].
    rewrite preSave_history, preSave_status, Hhist. unfold logged.
    case_bool_decide; [by rewrite decide_True|by rewrite decide_False].
  - by apply history_kept.
Qed.

(** One step: a request extends the history of every stored order by the
    entry of its status change, if there is one, and only by that. *)
Lemma run_history rq db i o :
  findById oid i (orders db) = Some o ->
  exists o', findById oid i (orders (run rq db)) = Some o'
             /\ statusHistory o' = statusHistory o ++ logged rq (status o) (status o').
Proof.
  intros Ho. destruct rq as [env now random user body|now user j target
    |now user j why|now user j|now user j|now user j]; cbn [run].
  - (* createOrder *)
    unfold createOrder.
    destruct (findById rid _ _) as [rest|]; [|by apply history_kept].
    destruct (negb _ || negb _); [by apply history_kept|].
    destruct (paymentMethod_of_string _); [|by apply history_kept].
    destruct (buildOrderItems _ _ _); [by apply history_kept|].
    destruct (Qlt_le_dec _ _); [by apply history_kept|].
    destruct (if b_isSurgeTime body then _ else _); [|by apply history_kept].
    destruct (negb (validNewOrder _ _ _)); [by apply history_kept|].
    cbn [snd orders set_orders set_menuItems].
    exists o. split; [by apply findById_app|].
    unfold logged. rewrite decide_True by done. by rewrite app_nil_r.
  - (* updateOrderStatus *)
    unfold updateOrderStatus.
    destruct (findById oid j (orders db)) as [order|] eqn:Horder;
      [|by apply history_kept].
    destruct (findById rid _ _) as [rest|]; [|by apply history_kept].
    destruct (includes _ _ && negb _); [by apply history_kept|].
    destruct (includes _ _ && negb _); [by apply history_kept|].
    destruct (status_of_string target) as [st|]; [|by apply history_kept].
    cbn [snd].
    pose proof (findById_key _ _ _ _ Horder) as <-.
    apply (history_after_save (UpdateOrderStatus now user (oid order) target));
      try done.
    + unfold stampMilestone. by destruct (status (set_status st order)).
    + unfold stampMilestone. by destruct (status (set_status st order)).
  - (* cancelOrder *)
    unfold cancelOrder.
    destruct (findById oid j (orders db)) as [order|] eqn:Horder;
      [|by apply history_kept].
    destruct (includes _ _); [by apply history_kept|].
    destruct (findById rid _ _) as [rest|]; [|by apply history_kept].
    destruct (negb _ && negb _ && negb _); [by apply history_kept|].
    cbn [snd].
    pose proof (findById_key _ _ _ _ Horder) as <-.
    by apply (history_after_save (CancelOrder now user (oid order) why)).
  - (* acceptOrder *)
    unfold acceptOrder.
    destruct (findById oid j (orders db)) as [order|] eqn:Horder;
      [|by apply history_kept].
    destruct (negb _); [by apply history_kept|].
    destruct (bool_decide _); [by apply history_kept|].
    cbn [snd orders set_users].
    pose proof (findById_key _ _ _ _ Horder) as <-.
    by apply (history_after_save (AcceptOrder now user (oid order))).
  - (* pickupOrder *)
    unfold pickupOrder.
    destruct (findById oid j (orders db)) as [order|] eqn:Horder;
      [|by apply history_kept].
    destruct (driver order) as [d|]; [|by apply history_kept].
    destruct (negb _); [by apply history_kept|].
    destruct (negb _); [by apply history_kept|].
    cbn [snd].
    pose proof (findById_key _ _ _ _ Horder) as <-.
    by apply (history_after_save (PickupOrder now user (oid order))).
  - (* completeDelivery *)
    unfold completeDelivery.
    destruct (findById oid j (orders db)) as [order|] eqn:Horder;
      [|by apply history_kept].
    destruct (driver order) as [d|]; [|by apply history_kept].
    destruct (negb _); [by apply history_kept|].
    cbn [snd orders set_users set_restaurants].
    pose proof (findById_key _ _ _ _ Horder) as <-.
    by apply (history_after_save (CompleteDelivery now user (oid order))).
Qed.

(** The history of the order after a full life cycle. *)
Lemma lifecycle_history (t0 t1 t2 t3 t4 t5 t6 : Date) :
  storedStatus 1 (lifecycle t0 t1 t2 t3 t4 t5 t6) = Some delivered
  /\ storedHistory 1 (lifecycle t0 t1 t2 t3 t4 t5 t6)
     = [{| h_status := confirmed; h_timestamp := t1 |};
        {| h_status := preparing; h_timestamp := t2 |};
        {| h_status := ready; h_timestamp := t3 |};
        {| h_status := assigned; h_timestamp := t4 |};
        {| h_status := picked_up; h_timestamp := t5 |};
        {| h_status := delivered; h_timestamp := t6 |}].
Proof. vm_compute. split; reflexivity. Qed.

(** C7 (amended). Every request extends the status history of every stored
    order by exactly one entry, the new status with the time of the request,
    when it changes the status of that order, and by nothing otherwise;
    entries are never removed or rewritten. The status pending, which an
    order has by schema default when it is created, is not logged, so a full
    life cycle pending, confirmed, preparing, ready, assigned, picked-up,
    delivered leaves exactly the six entries confirmed, preparing, ready,
    assigned, picked-up, delivered, in that order, with the times of the six
    requests, which are non-decreasing when the clock is. *)
Theorem statusHistory_append_only :
  (forall rq db i o,
     findById oid i (orders db) = Some o ->
     exists o',
       findById oid i (orders (run rq db)) = Some o'
       /\ statusHistory o'
          = statusHistory o ++ logged rq (status o) (status o'))
  /\ (forall t0 t1 t2 t3 t4 t5 t6 : Date,
       (t1 <= t2 <= t3)%N -> (t3 <= t4 <= t5)%N -> (t5 <= t6)%N ->
       let history := storedHistory 1 (lifecycle t0 t1 t2 t3 t4 t5 t6) in
       map h_status history
       = [confirmed; preparing; ready; assigned; picked_up; delivered]
       /\ map h_timestamp history = [t1; t2; t3; t4; t5; t6]
       /\ StronglySorted N.le (map h_timestamp history)).
Proof.
  split; [exact run_history|].
  intros t0 t1 t2 t3 t4 t5 t6 H123 H345 H56 history.
  destruct (lifecycle_history t0 t1 t2 t3 t4 t5 t6) as [_ Hh].
  unfold history. rewrite Hh. cbn [map h_status h_timestamp].
  split; [done|]. split; [done|].
  repeat (constructor; [|repeat constructor; lia]). constructor.
Qed.

(** The life cycle at the times 1 to 7, and the step that confirms the order. *)
Lemma statusHistory_append_only_witness :
  (exists o',
     findById oid 1 (orders (run (UpdateOrderStatus 2 rita 1 "confirmed") (placed 1)))
     = Some o'
     /\ map h_status (statusHistory o') = [confirmed])
  /\ map h_timestamp (storedHistory 1 (lifecycle 1 2 3 4 5 6 7))
     = [2; 3; 4; 5; 6; 7]%N.
Proof.
  split.
  - destruct (findById oid 1 (orders (placed 1))) as [o|] eqn:Ho;
      [|by vm_compute in Ho].
    destruct (proj1 statusHistory_append_only
                (UpdateOrderStatus 2 rita 1 "confirmed") (placed 1) 1%nat o Ho)
      as (o' & Ho' & Hh).
    exists o'. split; [exact Ho'|].
    vm_compute in Ho. injection Ho as <-.
    vm_compute in Ho'. injection Ho' as <-. reflexivity.
  - apply (proj2 statusHistory_append_only 1 2 3 4 5 6 7)%N; lia.
Defined.

(** C7, as stated, fails: after the full life cycle the history has six
    entries, and pending is not among them. *)
Lemma lifecycle_history_six_entries :
  storedStatus 1 (lifecycle 1 2 3 4 5 6 7) = Some delivered
  /\ length (storedHistory 1 (lifecycle 1 2 3 4 5 6 7)) = 6%nat
  /\ map h_status (storedHistory 1 (lifecycle 1 2 3 4 5 6 7)) <> fullLifecycle.
Proof. vm_compute. repeat split. discriminate. Qed.

(** *** Transitions *)

(** [updateOrderStatus] has an authorization gate and the enum validation of
    [save], and nothing else: the status the order has plays no part. *)
Lemma updateOrderStatus_any_status now user i target db order rest st :
  findById oid i (orders db) = Some order ->
  findById rid (restaurant order) (restaurants db) = Some rest ->
  mayUpdate user order rest target = true ->
  status_of_string target = Some st ->
  exists saved,
    updateOrderStatus now user i target db = (Success 200 saved, persist saved db)
    /\ status saved = st.
Proof.
  intros Horder Hrest Hmay Hst. unfold updateOrderStatus.
  rewrite Horder, Hrest, Hst. unfold mayUpdate in Hmay.
  apply andb_true_iff in Hmay as [H1 H2].
  apply negb_true_iff in H1, H2. rewrite H1, H2.
  eexists. split; [done|].
  rewrite preSave_status. unfold stampMilestone.
  by destruct (status (set_status st order)) eqn:E; cbn in *.
Qed.

(** [updateOrderStatus] writes to the order collection only. *)
Lemma updateOrderStatus_users_restaurants now user i target db :
  users (updateOrderStatus now user i target db).2 = users db
  /\ restaurants (updateOrderStatus now user i target db).2 = restaurants db.
Proof.
  unfold updateOrderStatus.
  destruct (findById oid i (orders db)) as [order|]; [|done].
  destruct (findById rid _ _) as [rest|]; [|done].
  destruct (includes _ _ && negb _); [done|].
  destruct (includes _ _ && negb _); [done|].
  by destruct (status_of_string target).
Qed.

(** C1: what the code does on transitions that the state machine excludes.
    (1) The delivered order of the full life cycle is set back to picked-up by
    its driver. (2) The assigned order is set to pending by the driver, and
    from pending directly to delivered. (3) [completeDelivery] delivers the
    order that is only assigned, and delivers the delivered order again. All
    these requests are answered with 200. *)
Theorem updateOrderStatus_no_transition_check :
  let deliveredDb := lifecycle 1 2 3 4 5 6 7 in
  let assignedDb := accepted 1 2 3 4 5 in
  let pendingDb := (updateOrderStatus 6 dan 1 "pending" assignedDb).2 in
  (storedStatus 1 deliveredDb = Some delivered
   /\ answeredStatus (updateOrderStatus 8 dan 1 "picked-up" deliveredDb).1
      = Some picked_up
   /\ storedStatus 1 (updateOrderStatus 8 dan 1 "picked-up" deliveredDb).2
      = Some picked_up)
  /\ (storedStatus 1 assignedDb = Some assigned
      /\ storedStatus 1 pendingDb = Some pending
      /\ answeredStatus (updateOrderStatus 7 dan 1 "delivered" pendingDb).1
         = Some delivered
      /\ storedStatus 1 (updateOrderStatus 7 dan 1 "delivered" pendingDb).2
         = Some delivered)
  /\ (answeredStatus (completeDelivery 6 dan 1 assignedDb).1 = Some delivered
      /\ answeredStatus (completeDelivery 8 dan 1 deliveredDb).1 = Some delivered
      /\ (totalDeliveries ∘ driverProfile
            <$> users (completeDelivery 8 dan 1 deliveredDb).2 !! 30%nat)
         = Some 2%nat).
Proof. vm_compute. repeat split. Qed.

(** What [completeDelivery] does for the driver of an order, whatever the
    status of the order: it stamps and pays the order, counts the delivery,
    makes the driver available and adds the earnings of the restaurant to its
    revenue. *)
Lemma completeDelivery_effects now user i db order :
  findById oid i (orders db) = Some order ->
  driver order = Some (u_id user) ->
  let r := completeDelivery now user i db in
  exists saved,
    r.1 = Success 200 saved
    /\ findById oid i (orders r.2) = Some saved
    /\ status saved = delivered
    /\ deliveredAt saved = Some now
    /\ pay_status (payment saved) = pay_completed
    /\ paidAt (payment saved) = Some now
    /\ users r.2 !! u_id user = recordDelivery <$> users db !! u_id user
    /\ findById rid (restaurant order) (restaurants r.2)
       = recordRevenue (p_restaurantEarnings (pricing order))
         <$> findById rid (restaurant order) (restaurants db).
Proof.
  intros Horder Hdriver. cbv zeta. unfold completeDelivery.
  rewrite Horder, Hdriver, bool_decide_eq_true_2 by done. cbn [negb fst snd].
  pose proof (findById_key _ _ _ _ Horder) as Hid.
  eexists. split; [done|].
  cbn [orders users restaurants set_users set_restaurants].
  rewrite persist_lookup, preSave_oid, preSave_status, persist_users,
    persist_restaurants.
  destruct (preSave_fields (status order) now
              (set_payment
                 {| method := method (payment order); pay_status := pay_completed;
                    transactionId := transactionId (payment order);
                    paidAt := Some now |}
                 (set_deliveredAt (Some now) (set_status delivered order))))
    as (-> & -> & -> & -> & _).
  cbn [oid restaurant pricing payment deliveredAt status set_payment
       set_deliveredAt set_status pay_status paidAt].
  rewrite bool_decide_eq_true_2 by done. rewrite Horder.
  repeat split; try done.
  - apply lookup_alter_eq.
  - rewrite findById_updateById by done.
    by rewrite bool_decide_eq_true_2.
Qed.

(** C5: the two ways to deliver the picked-up order. Through
    [updateOrderStatus] the order is stamped and paid, but the profile of the
    driver and the statistics of the restaurant stay as they were; through
    [completeDelivery] the delivery is counted, the driver is available again
    and the revenue grows by the earnings of the restaurant (9.60). *)
Theorem updateOrderStatus_delivered_skips_stats :
  let db := pickedUp 1 2 3 4 5 6 in
  let viaStatus := updateOrderStatus 7 dan 1 "delivered" db in
  let viaComplete := completeDelivery 7 dan 1 db in
  (answeredStatus viaStatus.1 = Some delivered
   /\ (deliveredAt <$> findById oid 1 (orders viaStatus.2)) = Some (Some 7%N)
   /\ (payment <$> findById oid 1 (orders viaStatus.2))
      = Some {| method := cash; pay_status := pay_completed;
                transactionId := None; paidAt := Some 7%N |})
  /\ (users viaStatus.2 = users db
      /\ restaurants viaStatus.2 = restaurants db
      /\ (driverProfile <$> users viaStatus.2 !! 30%nat)
         = Some {| isAvailable := false; totalDeliveries := 0 |}
      /\ (stats_totalRevenue <$> findById rid 1 (restaurants viaStatus.2))
         = Some 0%Q)
  /\ (answeredStatus viaComplete.1 = Some delivered
      /\ (driverProfile <$> users viaComplete.2 !! 30%nat)
         = Some {| isAvailable := true; totalDeliveries := 1 |}
      /\ (stats_totalOrders <$> findById rid 1 (restaurants viaComplete.2))
         = Some 1%nat
      /\ (p_restaurantEarnings ∘ pricing <$> findById oid 1 (orders db))
         = Some (9.60)%Q
      /\ (stats_totalRevenue <$> findById rid 1 (restaurants viaComplete.2))
         = Some (0 + 9.60)%Q).
Proof.
  cbv zeta. split; [|split].
  - vm_compute. repeat split.
  - destruct (updateOrderStatus_users_restaurants 7 dan 1 "delivered"
                (pickedUp 1 2 3 4 5 6)) as [-> ->].
    split; [done|]. split; [done|]. vm_compute. repeat split.
  - vm_compute. repeat split.
Qed.

End LifecycleProps.

(** ** The handlers, one by one *)

Module HandlerProps.

Lemma preSave_milestones loaded now o :
  acceptedAt (preSave loaded now o) = acceptedAt o
  /\ preparedAt (preSave loaded now o) = preparedAt o
  /\ pickedUpAt (preSave loaded now o) = pickedUpAt o.
Proof. unfold preSave. by destruct (bool_decide _). Qed.

Lemma persist_parts o db :
  users (persist o db) = users db
  /\ restaurants (persist o db) = restaurants db
  /\ menuItems (persist o db) = menuItems db.
Proof. done. Qed.

Lemma persist_found i o db order :
  findById oid i (orders db) = Some order ->
  oid o = i ->
  findById oid i (orders (persist o db)) = Some o.
Proof.
  intros H <-. rewrite persist_lookup, bool_decide_eq_true_2 by done.
  by rewrite H.
Qed.

(** [pickupOrder], case by case. It answers 404 for an unknown order, throws
    (the [TypeError] of [order.driver.toString()]) for an order without a
    driver, answers 403 when the driver is someone else and 400 when the
    status is not assigned; in all these cases the store is unchanged.
    Otherwise it answers 200, and the stored order is picked-up with
    [pickedUpAt] set to the time of the request and the same driver; users and
    restaurants are not written. *)
Theorem pickupOrder_spec now user i db :
  let r := pickupOrder now user i db in
  (findById oid i (orders db) = None -> r = (Failure 404 OrderNotFound, db))
  /\ (forall order,
        findById oid i (orders db) = Some order ->
        match driver order with
        | None => r = (Thrown TypeError, db)
        | Some d =>
            if decide (d = u_id user) then
              if decide (status order = assigned) then
                exists saved,
                  r.1 = Success 200 saved
                  /\ findById oid i (orders r.2) = Some saved
                  /\ status saved = picked_up
                  /\ pickedUpAt saved = Some now
                  /\ driver saved = Some (u_id user)
                  /\ users r.2 = users db
                  /\ restaurants r.2 = restaurants db
              else r = (Failure 400 StatusInvalidForPickup, db)
            else r = (Failure 403 NotAuthorized, db)
        end).
Proof.
  cbv zeta. unfold pickupOrder. split.
  - by intros ->.
  - intros order Horder. rewrite Horder.
    destruct (driver order) as [d|] eqn:Hd; [|done].
    destruct (decide (d = u_id user)) as [->|Hne].
    2:{ by rewrite bool_decide_eq_false_2. }
    rewrite bool_decide_eq_true_2 by done. cbn [negb].
    destruct (decide (status order = assigned)) as [Hs|Hs].
    2:{ by rewrite bool_decide_eq_false_2. }
    rewrite bool_decide_eq_true_2 by done. cbn [negb fst snd].
    pose proof (findById_key _ _ _ _ Horder) as Hid.
    eexists. split; [done|].
    rewrite (persist_found i _ db order) by (by rewrite ?preSave_oid).
    destruct (preSave_milestones (status order) now
                (set_pickedUpAt (Some now) (set_status picked_up order)))
      as (_ & _ & ->).
    by rewrite preSave_status, preSave_driver.
Qed.

(** [completeDelivery], case by case. It answers 404 for an unknown order,
    throws for an order without a driver and answers 403 when the driver is
    someone else, leaving the store unchanged. For the driver of the order it
    answers 200 whatever the status of the order is: the stored order is
    delivered, [deliveredAt] and [payment.paidAt] are the time of the request,
    the payment is completed, the delivery count of the driver grows by one,
    the driver is available, and the restaurant of the order has one more
    order and the earnings of this order added to its revenue. *)
Theorem completeDelivery_spec now user i db :
  let r := completeDelivery now user i db in
  (findById oid i (orders db) = None -> r = (Failure 404 OrderNotFound, db))
  /\ (forall order,
        findById oid i (orders db) = Some order ->
        match driver order with
        | None => r = (Thrown TypeError, db)
        | Some d =>
            if decide (d = u_id user) then
              exists saved,
                r.1 = Success 200 saved
                /\ findById oid i (orders r.2) = Some saved
                /\ status saved = delivered
                /\ deliveredAt saved = Some now
                /\ payment saved
                   = {| method := method (payment order);
                        pay_status := pay_completed;
                        transactionId := transactionId (payment order);
                        paidAt := Some now |}
                /\ users r.2 = alter recordDelivery (u_id user) (users db)
                /\ restaurants r.2
                   = updateById rid (restaurant order)
                       (recordRevenue (p_restaurantEarnings (pricing order)))
                       (restaurants db)
            else r = (Failure 403 NotAuthorized, db)
        end).
Proof.
  cbv zeta. unfold completeDelivery. split.
  - by intros ->.
  - intros order Horder. rewrite Horder.
    destruct (driver order) as [d|] eqn:Hd; [|done].
    destruct (decide (d = u_id user)) as [->|Hne].
    2:{ by rewrite bool_decide_eq_false_2. }
    rewrite bool_decide_eq_true_2 by done. cbn [negb fst snd].
    pose proof (findById_key _ _ _ _ Horder) as Hid.
    eexists. split; [done|].
    cbn [orders users restaurants set_users set_restaurants].
    rewrite (persist_found i _ db order) by (by rewrite ?preSave_oid).
    destruct (preSave_fields (status order) now
                (set_payment
                   {| method := method (payment order); pay_status := pay_completed;
                      transactionId := transactionId (payment order);
                      paidAt := Some now |}
                   (set_deliveredAt (Some now) (set_status delivered order))))
      as (-> & -> & -> & -> & _).
    by rewrite preSave_status.
Qed.

(** The authorization gate of [updateOrderStatus], by target: the four
    restaurant statuses ask for the owner of the restaurant, the three driver
    statuses for the driver of the order, and the names pending, assigned and
    cancelled, like every other string, for nobody. *)
Lemma mayUpdate_by_target user order rest (st : Status) :
  mayUpdate user order rest (status_name st) = true
  <-> match st with
      | confirmed | preparing | ready | rejected => owner rest = u_id user
      | picked_up | on_the_way | delivered => driver order = Some (u_id user)
      | pending | assigned | cancelled => True
      end.
Proof.
  unfold mayUpdate, isDriverOf.
  destruct st; cbn -[bool_decide]; repeat case_bool_decide; cbn;
    split; intros; try done;
    repeat match goal with
           | H : ?x ∈ _ |- _ => by (repeat (apply elem_of_cons in H as [H|H];
                                             [discriminate H|]);
                                    apply elem_of_nil in H)
           | H : ¬ (?x ∈ _) |- _ => by (exfalso; apply H; set_solver)
           end.
Qed.

(** [updateOrderStatus], case by case. It answers 404 for an unknown order,
    throws when the restaurant of the order is missing, answers 403 when the
    gate refuses the caller, and throws the validation error of [save] when
    the target is not one of the ten status names; the store is unchanged in
    these cases. Otherwise it answers 200 and stores the order with the target
    status, whatever status it had: [acceptedAt], [preparedAt], [pickedUpAt],
    [deliveredAt] are stamped for confirmed, ready, picked-up, delivered, the
    payment is completed for delivered, and the driver and the cancellation
    record are as before (also when the target is cancelled). *)
Theorem updateOrderStatus_spec now user i target db :
  let r := updateOrderStatus now user i target db in
  (findById oid i (orders db) = None -> r = (Failure 404 OrderNotFound, db))
  /\ (forall order,
        findById oid i (orders db) = Some order ->
        match findById rid (restaurant order) (restaurants db) with
        | None => r = (Thrown TypeError, db)
        | Some rest =>
            if mayUpdate user order rest target then
              match status_of_string target with
              | None => r = (Thrown ValidationError, db)
              | Some st =>
                  exists saved,
                    r = (Success 200 saved, persist saved db)
                    /\ findById oid i (orders r.2) = Some saved
                    /\ status saved = st
                    /\ driver saved = driver order
                    /\ cancellation saved = cancellation order
                    /\ acceptedAt saved
                       = (if decide (st = confirmed) then Some now
                          else acceptedAt order)
                    /\ preparedAt saved
                       = (if decide (st = ready) then Some now else preparedAt order)
                    /\ pickedUpAt saved
                       = (if decide (st = picked_up) then Some now
                          else pickedUpAt order)
                    /\ deliveredAt saved
                       = (if decide (st = delivered) then Some now
                          else deliveredAt order)
                    /\ payment saved
                       = (if decide (st = delivered)
                          then {| method := method (payment order);
                                  pay_status := pay_completed;
                                  transactionId := transactionId (payment order);
                                  paidAt := Some now |}
                          else payment order)
              end
            else r = (Failure 403 NotAuthorized, db)
        end).
Proof.
  cbv zeta. unfold updateOrderStatus, mayUpdate. split.
  - by intros ->.
  - intros order Horder. rewrite Horder.
    destruct (findById rid _ _) as [rest|]; [|done].
    destruct (includes _ target && negb _); [done|].
    destruct (includes _ target && negb _); [done|].
    cbn [negb andb].
    destruct (status_of_string target) as [st|]; [|done].
    pose proof (findById_key _ _ _ _ Horder) as Hid.
    eexists. split; [done|]. cbn [snd].
    rewrite (persist_found i _ db order)
      by (rewrite ?preSave_oid; unfold stampMilestone;
          by destruct (status (set_status st order))).
    set (o1 := stampMilestone now (set_status st order)).
    destruct (preSave_fields (status order) now o1) as (_ & _ & -> & -> & ->).
    destruct (preSave_milestones (status order) now o1) as (-> & -> & ->).
    rewrite preSave_status, preSave_driver. unfold o1, stampMilestone.
    by destruct st.
Qed.

(** The 403 of [updateOrderStatus], for an order and a restaurant that exist:
    it is answered exactly when the target is confirmed, preparing, ready or
    rejected and the caller does not own the restaurant, or the target is
    picked-up, on-the-way or delivered and the caller is not the driver of the
    order. No other target, cancelled among them, is ever refused. *)
Theorem updateOrderStatus_forbidden_iff now user i target db order rest :
  findById oid i (orders db) = Some order ->
  findById rid (restaurant order) (restaurants db) = Some rest ->
  updateOrderStatus now user i target db = (Failure 403 NotAuthorized, db)
  <-> (target ∈ ["confirmed"; "preparing"; "ready"; "rejected"]
       /\ owner rest <> u_id user)
      \/ (target ∈ ["picked-up"; "on-the-way"; "delivered"]
          /\ driver order <> Some (u_id user)).
Proof.
  intros Horder Hrest. unfold updateOrderStatus, includes, isDriverOf.
  rewrite Horder, Hrest.
  repeat case_bool_decide; cbn [andb negb]; try (split; [done|tauto]);
    try (split; [tauto|done]).
  all: destruct (status_of_string target); split; try done; tauto.
Qed.

(** Rita's restaurant, and Dan who is not the driver of the pending order. *)
Lemma updateOrderStatus_forbidden_iff_witness :
  updateOrderStatus 2 dan 1 "confirmed" (placed 1)
  = (Failure 403 NotAuthorized, placed 1)
  /\ updateOrderStatus 2 dan 1 "delivered" (placed 1)
     = (Failure 403 NotAuthorized, placed 1)
  /\ updateOrderStatus 2 dan 1 "cancelled" (placed 1)
     <> (Failure 403 NotAuthorized, placed 1).
Proof.
  destruct (findById oid 1 (orders (placed 1))) as [order|] eqn:Horder;
    [|by vm_compute in Horder].
  assert (findById rid (restaurant order) (restaurants (placed 1)) = Some r1)
    as Hrest.
  { vm_compute in Horder. injection Horder as <-. reflexivity. }
  assert (driver order = None /\ owner r1 = 10%nat) as [Hd Ho].
  { vm_compute in Horder. injection Horder as <-. done. }
  pose proof (updateOrderStatus_forbidden_iff 2 dan 1 "confirmed" _ _ _ Horder Hrest)
    as H1.
  pose proof (updateOrderStatus_forbidden_iff 2 dan 1 "delivered" _ _ _ Horder Hrest)
    as H2.
  pose proof (updateOrderStatus_forbidden_iff 2 dan 1 "cancelled" _ _ _ Horder Hrest)
    as H3.
  split; [|split].
  - apply H1. left. split; [apply list_elem_of_here|]. rewrite Ho. done.
  - apply H2. right.
    split; [do 2 apply list_elem_of_further; apply list_elem_of_here|].
    by rewrite Hd.
  - intros H. apply H3 in H as [[H _]|[H _]].
    + repeat (apply elem_of_cons in H as [H|H]; [discriminate H|]).
      by apply elem_of_nil in H.
    + repeat (apply elem_of_cons in H as [H|H]; [discriminate H|]).
      by apply elem_of_nil in H.
Defined.

End HandlerProps.

(** ** Handlers in sequence *)

Module ComposeProps.

(** The successful branch of [acceptOrder], in closed form. *)
Lemma acceptOrder_ok now user i db order :
  findById oid i (orders db) = Some order ->
  status order = ready ->
  driver order = None ->
  exists saved,
    acceptOrder now user i db
    = (Success 200 saved,
       set_users (alter (setAvailable false) (u_id user) (users db))
                 (persist saved db))
    /\ findById oid i (orders (acceptOrder now user i db).2) = Some saved
    /\ keeps order saved
    /\ status saved = assigned
    /\ driver saved = Some (u_id user)
    /\ statusHistory saved
       = statusHistory order ++ [{| h_status := assigned; h_timestamp := now |}].
Proof.
  intros Horder Hs Hd. unfold acceptOrder. rewrite Horder, Hs, Hd.
  rewrite bool_decide_eq_true_2 by done.
  rewrite bool_decide_eq_false_2 by (by intros [? ?]). cbn [negb].
  pose proof (findById_key _ _ _ _ Horder) as Hid.
  eexists. split; [done|]. cbn [snd orders set_users].
  rewrite persist_lookup, preSave_oid, preSave_status, preSave_driver,
    preSave_history.
  cbn [oid status driver statusHistory set_status set_driver].
  rewrite bool_decide_eq_true_2 by done. rewrite Horder.
  rewrite bool_decide_eq_false_2 by done.
  repeat split; try done; unfold preSave;
    by rewrite bool_decide_eq_false_2.
Qed.

(** The successful branch of [pickupOrder], in closed form. *)
Lemma pickupOrder_ok now user i db order :
  findById oid i (orders db) = Some order ->
  status order = assigned ->
  driver order = Some (u_id user) ->
  exists saved,
    pickupOrder now user i db = (Success 200 saved, persist saved db)
    /\ findById oid i (orders (pickupOrder now user i db).2) = Some saved
    /\ keeps order saved
    /\ status saved = picked_up
    /\ driver saved = Some (u_id user)
    /\ statusHistory saved
       = statusHistory order ++ [{| h_status := picked_up; h_timestamp := now |}].
Proof.
  intros Horder Hs Hd. unfold pickupOrder. rewrite Horder, Hs, Hd.
  rewrite !bool_decide_eq_true_2 by done. cbn [negb].
  pose proof (findById_key _ _ _ _ Horder) as Hid.
  eexists. split; [done|]. cbn [snd].
  rewrite persist_lookup, preSave_oid, preSave_status, preSave_driver,
    preSave_history.
  cbn [oid status driver statusHistory set_status set_pickedUpAt].
  rewrite bool_decide_eq_true_2 by done. rewrite Horder.
  rewrite bool_decide_eq_false_2 by done.
  repeat split; try done; unfold preSave;
    by rewrite bool_decide_eq_false_2.
Qed.

(** The successful branch of [completeDelivery], for an order that is not yet
    delivered. *)
Lemma completeDelivery_ok now user i db order :
  findById oid i (orders db) = Some order ->
  status order <> delivered ->
  driver order = Some (u_id user) ->
  exists saved,
    completeDelivery now user i db
    = (Success 200 saved,
       set_restaurants
         (updateById rid (restaurant saved)
            (recordRevenue (p_restaurantEarnings (pricing saved)))
            (restaurants db))
         (set_users (alter recordDelivery (u_id user) (users db))
                    (persist saved db)))
    /\ findById oid i (orders (completeDelivery now user i db).2) = Some saved
    /\ keeps order saved
    /\ status saved = delivered
    /\ driver saved = Some (u_id user)
    /\ deliveredAt saved = Some now
    /\ statusHistory saved
       = statusHistory order ++ [{| h_status := delivered; h_timestamp := now |}].
Proof.
  intros Horder Hs Hd. unfold completeDelivery. rewrite Horder, Hd.
  rewrite bool_decide_eq_true_2 by done. cbn [negb].
  pose proof (findById_key _ _ _ _ Horder) as Hid.
  eexists. split; [done|]. cbn [snd orders set_users set_restaurants].
  rewrite persist_lookup, preSave_oid, preSave_status, preSave_driver,
    preSave_history.
  cbn [oid status driver statusHistory set_status set_deliveredAt set_payment].
  rewrite bool_decide_eq_true_2 by done. rewrite Horder.
  rewrite bool_decide_eq_false_2 by done.
  repeat split; try done; unfold preSave;
    by rewrite bool_decide_eq_false_2.
Qed.

Lemma keeps_trans o1 o2 o3 : keeps o1 o2 -> keeps o2 o3 -> keeps o1 o3.
Proof.
  unfold keeps. intros H1 H2.
  repeat match goal with H : _ /\ _ |- _ => destruct H as [? H] end.
  repeat split; congruence.
Qed.

(** A delivery from acceptance to completion. For a ready order without a
    driver and a driver with a user document, [acceptOrder], [pickupOrder] and
    [completeDelivery], called in this order by that driver, all answer 200.
    In between, the driver is refused by [getAvailableOrders] (not available).
    At the end the order is delivered, has that driver, has kept the data of
    its placement, and its history has grown by assigned, picked-up and
    delivered with the times of the three requests; the driver is available
    again with one more delivery. *)
Theorem delivery_round now1 now2 now3 user i db order u :
  findById oid i (orders db) = Some order ->
  status order = ready ->
  driver order = None ->
  users db !! u_id user = Some u ->
  let db1 := (acceptOrder now1 user i db).2 in
  let db2 := (pickupOrder now2 user i db1).2 in
  let db3 := (completeDelivery now3 user i db2).2 in
  (is_success (acceptOrder now1 user i db).1 = true
   /\ is_success (pickupOrder now2 user i db1).1 = true
   /\ is_success (completeDelivery now3 user i db2).1 = true)
  /\ (forall lat lng,
        getAvailableOrders user lat lng db1 = Failure 400 MarkAvailableFirst
        /\ getAvailableOrders user lat lng db2 = Failure 400 MarkAvailableFirst)
  /\ (exists final,
        findById oid i (orders db3) = Some final
        /\ keeps order final
        /\ status final = delivered
        /\ driver final = Some (u_id user)
        /\ statusHistory final
           = statusHistory order
             ++ [{| h_status := assigned; h_timestamp := now1 |};
                 {| h_status := picked_up; h_timestamp := now2 |};
                 {| h_status := delivered; h_timestamp := now3 |}])
  /\ users db3 !! u_id user = Some (recordDelivery u).
Proof.
  intros Horder Hs Hd Hu. cbv zeta.
  destruct (acceptOrder_ok now1 user i db order Horder Hs Hd)
    as (o1 & E1 & F1 & K1 & S1 & D1 & H1).
  destruct (pickupOrder_ok now2 user i _ o1 F1 S1 D1)
    as (o2 & E2 & F2 & K2 & S2 & D2 & H2).
  assert (status o2 <> delivered) as N2 by (by rewrite S2).
  destruct (completeDelivery_ok now3 user i _ o2 F2 N2 D2)
    as (o3 & E3 & F3 & K3 & S3 & D3 & _ & H3).
  assert (users (acceptOrder now1 user i db).2 !! u_id user
          = Some (setAvailable false u)) as U1.
  { rewrite E1. cbn [snd users set_users]. by rewrite lookup_alter_eq, Hu. }
  assert (users (pickupOrder now2 user i (acceptOrder now1 user i db).2).2
            !! u_id user = Some (setAvailable false u)) as U2.
  { rewrite E2. cbn [snd]. by rewrite persist_users. }
  split; [|split; [|split]].
  - by rewrite E3, E2, E1.
  - intros lat lng. unfold getAvailableOrders. by rewrite U1, U2.
  - exists o3. split; [done|]. split; [eauto using keeps_trans|].
    split; [done|]. split; [done|].
    rewrite H3, H2, H1, <- !app_assoc. done.
  - rewrite E3. cbn [snd users set_users set_restaurants].
    by rewrite lookup_alter_eq, U2.
Qed.

(** Dan delivers the order that Rita made ready. *)
Lemma delivery_round_witness :
  exists final,
    findById oid 1 (orders (lifecycle 1 2 3 4 5 6 7)) = Some final
    /\ status final = delivered
    /\ driver final = Some 30%nat.
Proof.
  destruct (findById oid 1 (orders (madeReady 1 2 3 4))) as [order|] eqn:Horder;
    [|by vm_compute in Horder].
  assert (status order = ready /\ driver order = None) as [Hs Hd].
  { vm_compute in Horder. injection Horder as <-. done. }
  destruct (delivery_round 5 6 7 dan 1 (madeReady 1 2 3 4) order
              (mkUser role_driver true) Horder Hs Hd eq_refl)
    as (_ & _ & (final & Hf & _ & Hst & Hdr & _) & _).
  exists final. split; [exact Hf|]. split; [exact Hst|exact Hdr].
Defined.





(** [toggleAvailability] flips the flag of the caller and answers with the new
    flag; the other users and the other collections are untouched; for a
    caller without a user document it throws. Toggling twice gives back the
    store. *)
Theorem toggleAvailability_spec user db :
  (users db !! u_id user = None ->
   toggleAvailability user db = (Thrown TypeError, db))
  /\ (forall u,
        users db !! u_id user = Some u ->
        (toggleAvailability user db).1
        = Success 200 (negb (isAvailable (driverProfile u)))
        /\ users (toggleAvailability user db).2 !! u_id user
           = Some (setAvailable (negb (isAvailable (driverProfile u))) u)
        /\ (forall j, j <> u_id user ->
                      users (toggleAvailability user db).2 !! j = users db !! j)
        /\ orders (toggleAvailability user db).2 = orders db
        /\ restaurants (toggleAvailability user db).2 = restaurants db)
  /\ (toggleAvailability user (toggleAvailability user db).2).2 = db.
Proof.
  unfold toggleAvailability. split; [by intros ->|]. split.
  - intros u ->. cbn [fst snd users set_users orders restaurants].
    repeat split; try done.
    + by rewrite lookup_insert_eq.
    + intros j Hj. by rewrite lookup_insert_ne.
  - destruct (users db !! u_id user) as [u|] eqn:Hu; cbn [snd].
    2:{ by rewrite Hu. }
    cbn [users set_users]. rewrite lookup_insert_eq. cbn [snd users set_users].
    destruct db as [os rs us ms]. unfold set_users; cbn in *. f_equal.
    rewrite insert_insert_eq.
    apply insert_id. rewrite Hu. f_equal.
    destruct u as [role [av n]]. cbn. by rewrite negb_involutive.
Qed.

End ComposeProps.

(** ** What every request preserves *)

Module InvariantProps.

Local Open Scope Q_scope.

Lemma keeps_refl o : keeps o o.
Proof. by repeat split. Qed.

Lemma preSave_keeps loaded now o : keeps o (preSave loaded now o).
Proof. unfold preSave. destruct (bool_decide _); by repeat split. Qed.

Lemma stampMilestone_keeps now o :
  keeps o (stampMilestone now o)
  /\ driver (stampMilestone now o) = driver o
  /\ statusHistory (stampMilestone now o) = statusHistory o.
Proof. unfold stampMilestone. destruct (status o); by repeat split. Qed.

Ltac solve_edit :=
  first [ by repeat split | by (intros ? ?; cbn) ].

(** The three shapes of the order collection after a request: unchanged; one
    document written back, edited by the handler and passed through the
    pre-save hook; one document added by a placement, created at the time of
    the request. *)
Lemma run_shape_dated rq db :
  orders (run rq db) = orders db
  \/ (exists order order',
        findById oid (oid order) (orders db) = Some order
        /\ keeps order order'
        /\ keepsDriver order order'
        /\ statusHistory order' = statusHistory order
        /\ orders (run rq db)
           = updateById oid (oid order)
               (fun _ => preSave (status order) (requestDate rq) order')
               (orders db))
  \/ (exists new, placedIn db new /\ createdAt new = requestDate rq
                  /\ orders (run rq db) = orders db ++ [new]).
Proof.
  destruct rq as [env now random user body|now user j target
    |now user j why|now user j|now user j|now user j]; cbn [run requestDate].
  - unfold createOrder.
    destruct (findById rid _ _) as [rest|]; [|by left].
    destruct (negb _ || negb _); [by left|].
    destruct (paymentMethod_of_string _); [|by left].
    destruct (buildOrderItems _ _ _); [by left|].
    destruct (Qlt_le_dec _ _); [by left|].
    destruct (if b_isSurgeTime body then _ else _); [|by left].
    destruct (negb (validNewOrder _ _ _)); [by left|].
    right; right. eexists. refine (conj _ (conj _ eq_refl)); [by repeat split|done].
  - unfold updateOrderStatus.
    destruct (findById oid j (orders db)) as [order|] eqn:Horder; [|by left].
    destruct (findById rid _ _) as [rest|]; [|by left].
    destruct (includes _ _ && negb _); [by left|].
    destruct (includes _ _ && negb _); [by left|].
    destruct (status_of_string target) as [st|]; [|by left].
    right; left. pose proof (findById_key _ _ _ _ Horder) as <-.
    destruct (stampMilestone_keeps now (set_status st order)) as (K & D & H).
    exists order, (stampMilestone now (set_status st order)).
    split; [done|]. split; [|split; [|split]].
    + eapply (ComposeProps.keeps_trans _ (set_status st order)); [by repeat split|done].
    + intros d Hd. by rewrite D.
    + by rewrite H.
    + cbn [snd]. unfold persist. cbn [orders set_orders].
      rewrite preSave_oid. by destruct K as [-> _].
  - unfold cancelOrder.
    destruct (findById oid j (orders db)) as [order|] eqn:Horder; [|by left].
    destruct (includes _ _); [by left|].
    destruct (findById rid _ _) as [rest|]; [|by left].
    destruct (negb _ && negb _ && negb _); [by left|].
    right; left. pose proof (findById_key _ _ _ _ Horder) as <-.
    eexists order, _. split; [done|]. split; [|split; [|split]];
      [| | |cbn [snd]; unfold persist; cbn [orders set_orders];
            by rewrite preSave_oid]; solve_edit.
  - unfold acceptOrder.
    destruct (findById oid j (orders db)) as [order|] eqn:Horder; [|by left].
    destruct (negb _); [by left|].
    case_bool_decide as Hd; [by left|].
    right; left. pose proof (findById_key _ _ _ _ Horder) as <-.
    eexists order, _. split; [done|]. split; [|split; [|split]];
      [| | |cbn [snd orders set_users]; unfold persist; cbn [orders set_orders];
            by rewrite preSave_oid]; try solve_edit.
    intros d Hd'. destruct Hd. by eexists.
  - unfold pickupOrder.
    destruct (findById oid j (orders db)) as [order|] eqn:Horder; [|by left].
    destruct (driver order) as [d|] eqn:Hdr; [|by left].
    destruct (negb _); [by left|].
    destruct (negb _); [by left|].
    right; left. pose proof (findById_key _ _ _ _ Horder) as <-.
    eexists order, _. split; [done|]. split; [|split; [|split]];
      [| | |cbn [snd]; unfold persist; cbn [orders set_orders];
            by rewrite preSave_oid]; solve_edit.
  - unfold completeDelivery.
    destruct (findById oid j (orders db)) as [order|] eqn:Horder; [|by left].
    destruct (driver order) as [d|] eqn:Hdr; [|by left].
    destruct (negb _); [by left|].
    right; left. pose proof (findById_key _ _ _ _ Horder) as <-.
    eexists order, _. split; [done|]. split; [|split; [|split]];
      [| | |cbn [snd orders set_users set_restaurants]; unfold persist;
            cbn [orders set_orders]; by rewrite preSave_oid]; solve_edit.
Qed.

Lemma run_shape rq db :
  orders (run rq db) = orders db
  \/ (exists order order',
        findById oid (oid order) (orders db) = Some order
        /\ keeps order order'
        /\ keepsDriver order order'
        /\ statusHistory order' = statusHistory order
        /\ orders (run rq db)
           = updateById oid (oid order)
               (fun _ => preSave (status order) (requestDate rq) order')
               (orders db))
  \/ (exists new, placedIn db new /\ orders (run rq db) = orders db ++ [new]).
Proof.
  destruct (run_shape_dated rq db) as [H|[H|(new & P & _ & H)]]; eauto.
Qed.

(** *** Identifiers *)

Lemma map_oid_updateById j new (l : list Order) :
  oid new = j -> map oid (updateById oid j (fun _ => new) l) = map oid l.
Proof.
  intros Hnew. unfold updateById. induction l as [|x l IH]; [done|].
  cbn [map]. rewrite IH. case_bool_decide; congruence.
Qed.

Lemma fresh_oid_new (l : list Order) : fresh_oid l ∉ map oid l.
Proof.
  unfold fresh_oid. intros H%max_list_elem_of_le. lia.
Qed.

Lemma run_NoDup rq db :
  NoDup (map oid (orders db)) -> NoDup (map oid (orders (run rq db))).
Proof.
  intros Hnd. destruct (run_shape rq db)
    as [->|[(order & order' & _ & K & _ & _ & ->)|(new & P & ->)]]; [done| |].
  - rewrite map_oid_updateById; [done|].
    rewrite preSave_oid. by destruct K as [-> _].
  - rewrite map_app. apply NoDup_app. split; [done|]. split.
    + intros x Hx ->%list_elem_of_singleton. destruct P as [P _].
      rewrite P in Hx. by apply fresh_oid_new in Hx.
    + apply NoDup_singleton.
Qed.

Lemma unique_by_oid (l : list Order) j order d :
  NoDup (map oid l) ->
  findById oid j l = Some order ->
  d ∈ l -> oid d = j -> d = order.
Proof.
  unfold findById. induction l as [|x l IH]; intros Hnd Hf Hd Hj;
    [by apply elem_of_nil in Hd|].
  cbn [map] in Hnd. apply NoDup_cons in Hnd as [Hx Hnd].
  cbn [List.find] in Hf. apply elem_of_cons in Hd as [->|Hd].
  - rewrite bool_decide_eq_true_2 in Hf by done. congruence.
  - case_bool_decide as Hxj; [|by apply IH].
    destruct Hx. rewrite Hxj, <- Hj. by apply (list_elem_of_fmap_2 oid).
Qed.

(** *** One request *)

Lemma evolves_refl rq o : evolves rq o o.
Proof.
  split; [apply keeps_refl|]. split; [by intros d|].
  unfold logged. rewrite decide_True by done. by rewrite app_nil_r.
Qed.

(** One request leaves the stored orders in place, each of them changed as
    [evolves] allows, and adds at most one order, at the end. *)
Lemma run_step rq db :
  NoDup (map oid (orders db)) ->
  exists l' extra,
    orders (run rq db) = l' ++ extra
    /\ Forall2 (evolves rq) (orders db) l'
    /\ (extra = [] \/ exists new, extra = [new] /\ placedIn db new).
Proof.
  intros Hnd. destruct (run_shape rq db)
    as [->|[(order & order' & Hf & K & D & H & ->)|(new & P & ->)]].
  - exists (orders db), []. rewrite app_nil_r. split; [done|].
    split; [|by left]. apply Forall_Forall2_diag, Forall_forall.
    intros o _. apply evolves_refl.
  - eexists _, []. rewrite app_nil_r. split; [done|]. split; [|by left].
    unfold updateById. change map with (@fmap list _).
    apply Forall2_fmap_r, Forall_Forall2_diag, Forall_forall.
    intros d Hd. unfold compose. case_bool_decide as Hj; [|apply evolves_refl].
    rewrite (unique_by_oid _ _ _ _ Hnd Hf Hd Hj).
    split; [|split].
    + eapply ComposeProps.keeps_trans; [exact K|apply preSave_keeps].
    + intros x Hx. rewrite preSave_driver. by apply D.
    + rewrite preSave_history, preSave_status, H. unfold logged.
      case_bool_decide; [by rewrite decide_True|by rewrite decide_False].
  - exists (orders db), [new]. split; [done|]. split; [|right; by exists new].
    apply Forall_Forall2_diag, Forall_forall. intros o _. apply evolves_refl.
Qed.

(** *** Sequences of requests *)

(** What a sequence of requests keeps of an order. *)
Lemma runAll_step_rel rqs db :
  NoDup (map oid (orders db)) ->
  NoDup (map oid (orders (runAll rqs db)))
  /\ exists l' extra,
       orders (runAll rqs db) = l' ++ extra
       /\ Forall2 (fun o o' => keeps o o' /\ keepsDriver o o'
                               /\ statusHistory o `prefix_of` statusHistory o')
                  (orders db) l'.
Proof.
  revert db. induction rqs as [|rq rqs IH]; intros db Hnd; cbn [runAll].
  - split; [done|]. exists (orders db), []. rewrite app_nil_r. split; [done|].
    apply Forall_Forall2_diag, Forall_forall. intros o _.
    split; [apply keeps_refl|]. split; [by intros d|done].
  - destruct (run_step rq db Hnd) as (l1 & e1 & E1 & F1 & _).
    destruct (IH (run rq db) (run_NoDup rq db Hnd)) as (Hnd' & l2 & e2 & E2 & F2).
    split; [done|]. rewrite E1 in F2.
    apply Forall2_app_inv_l in F2 as (k1 & k2 & Fk1 & _ & ->).
    exists k1, (k2 ++ e2). split; [by rewrite E2, app_assoc|].
    eapply Forall2_trans; [|exact F1|exact Fk1].
    intros x y z (K1 & D1 & H1) (K2 & D2 & H2).
    split; [eauto using ComposeProps.keeps_trans|].
    split; [intros d Hd; by apply D2, D1|].
    rewrite H1 in H2. by eapply prefix_app_l.
Qed.

(** Nothing that the handlers do deletes, reorders or duplicates an order.
    Starting from a store whose orders have distinct identifiers, after any
    sequence of requests the identifiers are still distinct, every order that
    was stored is still stored at the same position, with the same
    identifier, order number, customer, restaurant, items, pricing snapshot,
    address, contact, estimated time, surge data and creation time, with the
    same driver if it had one, and with a history that extends the one it
    had. *)
Theorem runAll_keeps rqs db k o :
  NoDup (map oid (orders db)) ->
  orders db !! k = Some o ->
  NoDup (map oid (orders (runAll rqs db)))
  /\ exists o',
       orders (runAll rqs db) !! k = Some o'
       /\ keeps o o'
       /\ keepsDriver o o'
       /\ statusHistory o `prefix_of` statusHistory o'.
Proof.
  intros Hnd Hk. destruct (runAll_step_rel rqs db Hnd) as (Hnd' & l' & e & E & F).
  split; [done|].
  destruct (Forall2_lookup_l _ _ _ _ _ F Hk) as (o' & Hk' & Ho').
  exists o'. split; [|done]. rewrite E. by apply lookup_app_l_Some.
Qed.

(** The order of the life cycle, from its placement on. *)
Lemma runAll_keeps_witness :
  exists o o',
    orders (placed 1) !! 0%nat = Some o
    /\ orders (runAll [UpdateOrderStatus 2 rita 1 "confirmed";
                       CancelOrder 3 alice 1 "changed mind"] (placed 1)) !! 0%nat
       = Some o'
    /\ pricing o' = pricing o
    /\ statusHistory o `prefix_of` statusHistory o'.
Proof.
  destruct (orders (placed 1) !! 0%nat) as [o|] eqn:Ho; [|by vm_compute in Ho].
  assert (NoDup (map oid (orders (placed 1)))) as Hnd.
  { vm_compute. apply NoDup_singleton. }
  destruct (runAll_keeps [UpdateOrderStatus 2 rita 1 "confirmed";
                          CancelOrder 3 alice 1 "changed mind"]
              (placed 1) 0%nat o Hnd Ho)
    as (_ & o' & Ho' & K & _ & H).
  exists o, o'. split; [done|]. split; [done|]. split; [|done].
  by destruct K as (_ & _ & _ & _ & _ & -> & _).
Defined.

(** *** The status and the history *)

Lemma Forall_updateById (P : Order -> Prop) j new (l : list Order) :
  Forall P l -> P new -> Forall P (updateById oid j (fun _ => new) l).
Proof.
  intros Hl Hnew. unfold updateById. change map with (@fmap list _).
  apply Forall_fmap. eapply Forall_impl; [exact Hl|].
  intros x Hx. unfold compose. by case_bool_decide.
Qed.

Lemma run_lastLogged rq db :
  Forall (fun o => status o = lastLogged o) (orders db) ->
  Forall (fun o => status o = lastLogged o) (orders (run rq db)).
Proof.
  intros Hinv. destruct (run_shape rq db)
    as [->|[(order & order' & Hf & _ & _ & H & ->)|(new & P & ->)]]; [done| |].
  - apply Forall_updateById; [done|].
    apply findById_In in Hf. rewrite Forall_forall in Hinv.
    specialize (Hinv _ Hf). unfold lastLogged in *.
    rewrite preSave_status, preSave_history, H.
    case_bool_decide as Hs.
    + rewrite app_nil_r. congruence.
    + by rewrite last_snoc.
  - apply Forall_app. split; [done|]. apply Forall_singleton.
    destruct P as (_ & Hs & Hh & _). unfold lastLogged. by rewrite Hs, Hh.
Qed.

(** The status of an order is the one its history ends with, and pending for
    an order with an empty history: a store in which this holds for every
    order keeps it through any sequence of requests. *)
Theorem runAll_lastLogged rqs db :
  Forall (fun o => status o = lastLogged o) (orders db) ->
  Forall (fun o => status o = lastLogged o) (orders (runAll rqs db)).
Proof.
  revert db. induction rqs as [|rq rqs IH]; intros db Hinv; cbn [runAll]; [done|].
  by apply IH, run_lastLogged.
Qed.

(** From the empty order collection of [db0]: a placement, its confirmation
    and its cancellation. *)
Lemma runAll_lastLogged_witness :
  Forall (fun o => status o = lastLogged o)
         (orders (runAll [CreateOrder env0 1 7 alice (oneOf 100);
                          UpdateOrderStatus 2 rita 1 "confirmed";
                          CancelOrder 3 alice 1 "changed mind"] db0)).
Proof. apply runAll_lastLogged. constructor. Defined.

Lemma run_historiesUpTo rq t db :
  (t <= requestDate rq)%N ->
  historiesUpTo t db ->
  historiesUpTo (requestDate rq) (run rq db).
Proof.
  intros Ht Hinv. unfold historiesUpTo in *.
  assert (Forall (fun o => StronglySorted N.le (historyDates o)
                           /\ Forall (fun d => (d <= requestDate rq)%N)
                                     (historyDates o)) (orders db)) as Hinv'.
  { eapply Forall_impl; [exact Hinv|]. intros o [Hs Hb]. split; [done|].
    eapply Forall_impl; [exact Hb|]. intros d Hd. cbn in Hd. lia. }
  destruct (run_shape rq db)
    as [->|[(order & order' & Hf & _ & _ & H & ->)|(new & P & ->)]]; [done| |].
  - apply Forall_updateById; [done|].
    apply findById_In in Hf. rewrite Forall_forall in Hinv'.
    destruct (Hinv' _ Hf) as [Hs Hb]. unfold historyDates in *.
    rewrite preSave_history, H, map_app.
    case_bool_decide.
    + cbn [map]. by rewrite app_nil_r.
    + cbn [map h_timestamp]. split.
      * apply StronglySorted_app. split; [|split; [done|repeat constructor]].
        intros x1 x2 Hx1 ->%list_elem_of_singleton.
        rewrite Forall_forall in Hb. by apply Hb.
      * apply Forall_app. split; [done|]. by apply Forall_singleton.
  - apply Forall_app. split; [done|]. apply Forall_singleton.
    destruct P as (_ & _ & Hh & _). unfold historyDates. rewrite Hh.
    split; constructor.
Qed.

(** Histories are in time order. When the clock readings of a sequence of
    requests do not decrease, starting at [t], a store whose histories are in
    time order and do not reach beyond [t] ends with histories that are in
    time order and do not reach beyond the last reading. *)
Theorem runAll_historiesUpTo rqs t db :
  StronglySorted N.le (t :: map requestDate rqs) ->
  historiesUpTo t db ->
  historiesUpTo (default t (last (map requestDate rqs))) (runAll rqs db).
Proof.
  revert t db. induction rqs as [|rq rqs IH]; intros t db Hsorted Hinv;
    cbn [runAll map]; [exact Hinv|].
  apply StronglySorted_inv in Hsorted as [Hrest Ht].
  apply Forall_cons in Ht as [Ht _].
  specialize (IH (requestDate rq) (run rq db) Hrest
                 (run_historiesUpTo rq t db Ht Hinv)).
  destruct rqs as [|rq' rqs]; [exact IH|].
  cbn [map] in *. rewrite last_cons_cons.
  destruct (last (requestDate rq' :: map requestDate rqs)) as [d|] eqn:E;
    [exact IH|].
  by apply last_None in E.
Qed.

Lemma runAll_historiesUpTo_witness :
  historiesUpTo 3
    (runAll [CreateOrder env0 1 7 alice (oneOf 100);
             UpdateOrderStatus 2 rita 1 "confirmed";
             CancelOrder 3 alice 1 "changed mind"] db0).
Proof.
  apply (runAll_historiesUpTo
           [CreateOrder env0 1 7 alice (oneOf 100);
            UpdateOrderStatus 2 rita 1 "confirmed";
            CancelOrder 3 alice 1 "changed mind"] 0%N db0).
  - cbn [map requestDate]. repeat (constructor; [|repeat constructor; lia]).
    constructor.
  - constructor.
Defined.

(** *** The order of the collection *)





End InvariantProps.

(** ** Placement and listing, further *)

Module PlacementProps.

Local Open Scope Q_scope.

(** *** Order items *)

(** What one pass of the loop of [createOrder] builds from an item. *)
Lemma buildOrderItem_Some db item oi :
  buildOrderItem db item = Some oi ->
  menuItem oi = ri_menuItem item
  /\ quantity oi = ri_quantity item
  /\ (exists m, menuItems db !! ri_menuItem item = Some m
                /\ mi_isAvailable m = true
                /\ name oi = mi_name m
                /\ price oi = mi_price m)
  /\ customizations oi = default [] (ri_customizations item)
  /\ specialInstructions oi = default "" (ri_specialInstructions item).
Proof.
  unfold buildOrderItem.
  destruct (menuItems db !! ri_menuItem item) as [m|]; [|done].
  destruct (mi_isAvailable m) eqn:Hav; [|done]. cbn [negb].
  intros [= <-].
  cbn [menuItem quantity name price customizations specialInstructions].
  split; [done|]. split; [done|]. split; [by exists m|]. done.
Qed.

Lemma buildOrderItems_inr db items acc ois :
  buildOrderItems db items acc = inr ois ->
  exists built,
    ois = acc ++ built
    /\ Forall2 (fun item oi => buildOrderItem db item = Some oi) items built.
Proof.
  revert acc. induction items as [|item items IH]; intros acc; cbn [buildOrderItems].
  - intros [= <-]. exists []. by rewrite app_nil_r.
  - destruct (buildOrderItem db item) as [oi|] eqn:Hoi; [|done].
    intros (built & -> & F)%IH. exists (oi :: built).
    split; [by rewrite <- app_assoc|]. by constructor.
Qed.

Lemma buildOrderItems_inl db items acc j :
  buildOrderItems db items acc = inl j ->
  exists before item,
    before ++ [item] `prefix_of` items
    /\ ri_menuItem item = j
    /\ buildOrderItem db item = None
    /\ Forall (fun item' => is_Some (buildOrderItem db item')) before.
Proof.
  revert acc. induction items as [|item items IH]; intros acc; cbn [buildOrderItems];
    [done|].
  destruct (buildOrderItem db item) as [oi|] eqn:Hoi.
  - intros (before & bad & Hp & Hj & Hb & Hall)%IH.
    exists (item :: before), bad. split; [by apply prefix_cons|].
    split; [done|]. split; [done|]. constructor; [by eexists|done].
  - intros [= <-]. exists [], item. split; [by eexists|]. by repeat split.
Qed.

(** The order items of a placement. When the loop over [req.body.items] ends,
    there is one order item per requested item, in the same order; it names an
    available menu item, carries its name and its price at the time of the
    order and the requested quantity, and the customizations and special
    instructions of the request (none and the empty string when the request
    has none). When the loop stops, it stops at the first item whose menu
    item is missing or unavailable: the items before it are all available. *)
Theorem buildOrderItems_spec db items :
  match buildOrderItems db items [] with
  | inr orderItems =>
      Forall2
        (fun item oi =>
           menuItem oi = ri_menuItem item
           /\ quantity oi = ri_quantity item
           /\ (exists m, menuItems db !! ri_menuItem item = Some m
                         /\ mi_isAvailable m = true
                         /\ name oi = mi_name m
                         /\ price oi = mi_price m)
           /\ customizations oi = default [] (ri_customizations item)
           /\ specialInstructions oi = default "" (ri_specialInstructions item))
        items orderItems
  | inl j =>
      exists before item,
        before ++ [item] `prefix_of` items
        /\ ri_menuItem item = j
        /\ (menuItems db !! j = None
            \/ exists m, menuItems db !! j = Some m /\ mi_isAvailable m = false)
        /\ Forall (fun item' =>
                     exists m, menuItems db !! ri_menuItem item' = Some m
                               /\ mi_isAvailable m = true) before
  end.
Proof.
  destruct (buildOrderItems db items []) as [j|ois] eqn:E.
  - apply buildOrderItems_inl in E as (before & item & Hp & Hj & Hb & Hall).
    exists before, item. split; [done|]. split; [done|]. split.
    + unfold buildOrderItem in Hb. rewrite Hj in Hb.
      destruct (menuItems db !! j) as [m|]; [|by left].
      right. exists m. split; [done|]. by destruct (mi_isAvailable m).
    + eapply Forall_impl; [exact Hall|]. intros item' [oi Hoi].
      apply buildOrderItem_Some in Hoi as (_ & _ & (m & ? & ? & _) & _ & _).
      by exists m.
  - apply buildOrderItems_inr in E as (built & -> & F). cbn [app].
    eapply Forall2_impl; [exact F|]. intros item oi.
    apply buildOrderItem_Some.
Qed.

(** *** The created order *)

(** What a successful placement has checked and done. The answer is 201; the
    restaurant exists, is active and open; the subtotal is not below its
    minimum order; every quantity is at least 1. The order is added at the end
    of the collection under an identifier that no stored order has, for the
    caller as customer, pending, without driver, without history and with a
    pending payment, and its total is subtotal + delivery fee + service fee.
    Users and restaurants are not written. *)
Theorem createOrder_success env now random user body db code order db' :
  createOrder env now random user body db = (Success code order, db') ->
  code = 201%nat
  /\ (exists rest,
        findById rid (b_restaurant body) (restaurants db) = Some rest
        /\ r_isActive rest = true /\ r_isOpen rest = true
        /\ minimumOrder rest <= p_subtotal (pricing order))
  /\ buildOrderItems db (b_items body) [] = inr (items order)
  /\ Forall (fun oi => 1 <= quantity oi) (items order)
  /\ orders db' = orders db ++ [order]
  /\ (oid order ∉ map oid (orders db))
  /\ customer order = u_id user
  /\ restaurant order = b_restaurant body
  /\ status order = pending
  /\ driver order = None
  /\ statusHistory order = []
  /\ pay_status (payment order) = pay_pending
  /\ createdAt order = now
  /\ p_total (pricing order)
     == p_subtotal (pricing order) + p_deliveryFee (pricing order)
        + p_serviceFee (pricing order)
  /\ users db' = users db
  /\ restaurants db' = restaurants db.
Proof.
  unfold createOrder.
  destruct (findById rid _ _) as [rest|] eqn:Hrest; [|done].
  destruct (r_isActive rest) eqn:Ha; [|done].
  destruct (r_isOpen rest) eqn:Ho; [|done]. cbn [negb orb].
  destruct (paymentMethod_of_string _); [|done].
  destruct (buildOrderItems _ _ _) as [|ois] eqn:Hitems; [done|].
  destruct (Qlt_le_dec _ _) as [|Hmin]; [done|].
  destruct (if b_isSurgeTime body then _ else _); [|done].
  destruct (validNewOrder _ _ _) eqn:Hvalid; [|done]. cbn [negb].
  intros [= <- <- <-].
  cbn [oid customer restaurant status driver statusHistory payment pay_status
       createdAt pricing items orders users restaurants set_orders set_menuItems].
  split; [done|]. split; [by exists rest|]. split; [done|]. split.
  { unfold validNewOrder in Hvalid. rewrite !andb_true_iff in Hvalid.
    destruct Hvalid as [[[Hq _] _] _].
    rewrite forallb_forall in Hq. apply Forall_forall. intros oi Hoi.
    apply Qle_bool_iff, Hq. by apply list_elem_of_In. }
  split; [done|]. split; [apply InvariantProps.fresh_oid_new|].
  repeat split; try done.
Qed.

(** Alice's burger. *)
Lemma createOrder_success_witness :
  exists order,
    (createOrder env0 1 7 alice (oneOf 100) db0).1 = Success 201 order
    /\ status order = pending
    /\ orders (createOrder env0 1 7 alice (oneOf 100) db0).2 = [order].
Proof.
  destruct (createOrder env0 1 7 alice (oneOf 100) db0) as [[code order| |] db']
    eqn:E; try (by vm_compute in E).
  destruct (createOrder_success _ _ _ _ _ _ _ _ _ E)
    as (-> & _ & _ & _ & Ho & _ & _ & _ & Hs & _).
  exists order. by repeat split.
Defined.

(** A surge order when [SURGE_MULTIPLIER] is not set. [calculatePricing] falls
    back to 1.5, but the multiplier stored with the order does not: the
    placement never succeeds and the store is unchanged. *)
Theorem createOrder_surge_unset env now random user body db :
  b_isSurgeTime body = true ->
  SURGE_MULTIPLIER env = None ->
  is_success (createOrder env now random user body db).1 = false
  /\ (createOrder env now random user body db).2 = db
  /\ (forall items fee,
        p_deliveryFee (calculatePricing env items fee true) = fee * (15 # 10)).
Proof.
  intros Hsurge Henv. unfold createOrder. rewrite Hsurge, Henv.
  split; [|split].
  - destruct (findById rid _ _) as [rest|]; [|done].
    destruct (negb _ || negb _); [done|].
    destruct (paymentMethod_of_string _); [|done].
    destruct (buildOrderItems _ _ _); [done|].
    by destruct (Qlt_le_dec _ _).
  - destruct (findById rid _ _) as [rest|]; [|done].
    destruct (negb _ || negb _); [done|].
    destruct (paymentMethod_of_string _); [|done].
    destruct (buildOrderItems _ _ _); [done|].
    by destruct (Qlt_le_dec _ _).
  - intros items fee. unfold calculatePricing, surgeMultiplierOf.
    by rewrite Henv.
Qed.

(** Alice's burger as a surge order, with nothing set in the environment. *)
Lemma createOrder_surge_unset_witness :
  is_success (createOrder env0 1 7 alice
                {| b_restaurant := 1; b_items := b_items (oneOf 100);
                   b_deliveryAddress := home; b_paymentMethod := "cash";
                   b_isSurgeTime := true |} db0).1 = false.
Proof.
  apply (createOrder_surge_unset env0 1 7 alice
           {| b_restaurant := 1; b_items := b_items (oneOf 100);
              b_deliveryAddress := home; b_paymentMethod := "cash";
              b_isSurgeTime := true |} db0); reflexivity.
Defined.

(** *** Listing *)

Lemma newestFirst_total (a b : Order) :
  (createdAt b <=? createdAt a)%N = false -> (createdAt a <=? createdAt b)%N = true.
Proof. rewrite N.leb_gt, N.leb_le. lia. Qed.

Lemma newestFirst_trans (a b c : Order) :
  (createdAt b <=? createdAt a)%N = true ->
  (createdAt c <=? createdAt b)%N = true ->
  (createdAt c <=? createdAt a)%N = true.
Proof. rewrite !N.leb_le. lia. Qed.

Lemma StronglySorted_take_drop {A} (R : A -> A -> Prop) n m (l : list A) :
  StronglySorted R l -> StronglySorted R (take n (drop m l)).
Proof.
  intros H. rewrite <- (take_drop m l) in H.
  apply StronglySorted_app_1_r in H.
  rewrite <- (take_drop n (drop m l)) in H.
  by apply StronglySorted_app_1_l in H.
Qed.

(** The figures of a page, for a positive limit. [total] counts the orders
    that match the query, whatever the page; [count] is the length of the
    page; [pages] is the least number of pages of [limit] orders that hold
    [total] orders; and the page lists newer orders before older ones. *)
Theorem getOrders_counts user q db page :
  (0 < q_limit q)%Z ->
  getOrders user q db = Success 200 page ->
  pg_total page
  = length (filter (fun o => matchesFilter (buildQuery user q db) o) (orders db))
  /\ pg_count page = length (pg_data page)
  /\ (exists p, pg_pages page = Some p
                /\ (Z.of_nat (pg_total page) <= p * q_limit q)%Z
                /\ ((p - 1) * q_limit q < Z.of_nat (pg_total page))%Z)
  /\ StronglySorted (fun a b => (createdAt b <= createdAt a)%N) (pg_data page).
Proof.
  intros Hlimit. unfold getOrders. destruct (_ <? 0)%Z; [done|].
  intros [= <-]. cbn [pg_total pg_count pg_pages pg_data].
  rewrite (proj2 (Z.eqb_neq _ _)) by lia.
  split; [done|]. split; [done|]. split.
  - eexists. split; [done|].
    set (total := Z.of_nat (length _)).
    pose proof (Z.div_mod (- total) (q_limit q) ltac:(lia)) as Hdm.
    pose proof (Z.mod_pos_bound (- total) (q_limit q) Hlimit) as Hb.
    nia.
  - unfold limitTo. rewrite (proj2 (Z.eqb_neq _ _)) by lia.
    apply StronglySorted_take_drop.
    eapply StronglySorted_weaken;
      [|apply (sort_by_sorted _ newestFirst_total newestFirst_trans)].
    intros a b H. by apply N.leb_le in H.
Qed.

Lemma getOrders_counts_witness :
  exists page,
    getOrders alice default_query (placed 1) = Success 200 page
    /\ pg_count page = length (pg_data page)
    /\ StronglySorted (fun a b => (createdAt b <= createdAt a)%N) (pg_data page).
Proof.
  destruct (getOrders alice default_query (placed 1)) as [code page| |] eqn:E;
    try (by vm_compute in E).
  assert (code = 200%nat) as -> by (vm_compute in E; by injection E as <- _).
  destruct (getOrders_counts alice default_query (placed 1) page eq_refl E)
    as (_ & Hc & _ & Hs).
  by exists page.
Defined.

(** Alice is shown her order, and only such orders. *)
Lemma getOrders_scoped_witness :
  exists page o,
    getOrders alice default_query (placed 1) = Success 200 page
    /\ o ∈ pg_data page
    /\ customer o = 20%nat.
Proof.
  destruct (getOrders alice default_query (placed 1)) as [code page| |] eqn:E;
    try (by vm_compute in E).
  assert (code = 200%nat) as -> by (vm_compute in E; by injection E as <- _).
  destruct (pg_data page) as [|o rest] eqn:Hdata.
  { vm_compute in E. injection E as <-. discriminate Hdata. }
  exists page, o. split; [done|]. rewrite Hdata. split; [apply list_elem_of_here|].
  apply (OrderProps.getOrders_scoped alice default_query (placed 1) page o E).
  rewrite Hdata. apply list_elem_of_here.
Defined.

(** A refused placement: the restaurant of the request does not exist. *)
Lemma createOrder_failure_keeps_store_witness :
  (createOrder env0 1 7 alice
     {| b_restaurant := 9; b_items := []; b_deliveryAddress := home;
        b_paymentMethod := "cash"; b_isSurgeTime := false |} db0).2 = db0.
Proof.
  apply (OrderProps.createOrder_failure_keeps_store env0 1 7 alice
           {| b_restaurant := 9; b_items := []; b_deliveryAddress := home;
              b_paymentMethod := "cash"; b_isSurgeTime := false |} db0).
  reflexivity.
Defined.

End PlacementProps.

(** ** Distances and the candidate query, further *)

Module DistanceProps.

Local Open Scope R_scope.

(** The distance from A to B is the distance from B to A. *)
Theorem calculateDistance_sym lat1 lon1 lat2 lon2 :
  calculateDistance lat1 lon1 lat2 lon2 = calculateDistance lat2 lon2 lat1 lon1.
Proof.
  unfold calculateDistance. cbv zeta.
  replace ((lat1 - lat2) * PI / 180 / 2) with (- ((lat2 - lat1) * PI / 180 / 2))
    by lra.
  replace ((lon1 - lon2) * PI / 180 / 2) with (- ((lon2 - lon1) * PI / 180 / 2))
    by lra.
  rewrite !sin_neg.
  set (s := sin ((lat2 - lat1) * PI / 180 / 2)).
  set (t := sin ((lon2 - lon1) * PI / 180 / 2)).
  set (c1 := cos (lat1 * PI / 180)). set (c2 := cos (lat2 * PI / 180)).
  replace (- s * - s + c2 * c1 * - t * - t) with (s * s + c1 * c2 * t * t) by ring.
  done.
Qed.


(** A restaurant that signed up without a position stops the query for every
    driver as long as one of its orders is among the first twenty ready
    ones. *)
Example getAvailableOrders_unlocated :
  let nowhere :=
    {| rid := 2; owner := 10; r_isActive := true; r_isOpen := true;
       r_coordinates := None; minimumOrder := 10%Q; deliveryTime_max := 45;
       deliveryFee := 3%Q; stats_totalOrders := 0; stats_totalRevenue := 0%Q |} in
  getAvailableOrders dan (Some 0) (Some 0)
    (set_restaurants [r1; nowhere]
       (set_orders [readyOrder 1; readyOrderOf 2 2] db0))
  = Thrown TypeError.
Proof. reflexivity. Qed.

End DistanceProps.

(** ** The driver's desk *)

Module DriverProps.

Local Open Scope Q_scope.

(** *** Earnings *)

Lemma earningsQuery_spec user s e o :
  earningsQuery user s e o = true
  <-> driver o = Some (u_id user)
      /\ status o = delivered
      /\ (forall s' e', s = Some s' -> e = Some e' ->
            exists d, deliveredAt o = Some d /\ (s' <= d <= e')%N).
Proof.
  unfold earningsQuery. rewrite !andb_true_iff, !bool_decide_eq_true.
  split.
  - intros [[Hd Hs] Hr]. split; [done|]. split; [done|].
    intros s' e' -> ->. destruct (deliveredAt o) as [d|]; [|done].
    exists d. split; [done|].
    apply andb_true_iff in Hr as [H1%N.leb_le H2%N.leb_le]. lia.
  - intros (Hd & Hs & Hr). split; [done|].
    destruct s as [s'|], e as [e'|]; try done.
    destruct (Hr s' e' eq_refl eq_refl) as (d & -> & H1 & H2).
    apply andb_true_iff. by rewrite !N.leb_le.
Qed.

(** [getEarnings]. When both dates are given and one of them is not a date,
    the query throws a cast error. Otherwise the answer is 200 and lists, in
    storage order, exactly the stored orders that are delivered, have the
    caller as driver and, when both dates are given, were delivered between
    them; a date given alone does not constrain, whether it can be read or
    not. The number of deliveries is the length of the list, and without
    deliveries both total and average are 0 (no division by zero). *)
Theorem getEarnings_spec user s e db :
  (is_Some s -> is_Some e -> s = Some None \/ e = Some None ->
   getEarnings user s e db = Thrown CastError)
  /\ (s = None \/ e = None
      \/ (exists s' e', s = Some (Some s') /\ e = Some (Some e')) ->
      exists data,
        getEarnings user s e db = Success 200 data
        /\ (forall o,
              o ∈ e_orders data
              <-> o ∈ orders db
                  /\ driver o = Some (u_id user)
                  /\ status o = delivered
                  /\ (forall s' e', s = Some (Some s') -> e = Some (Some e') ->
                        exists d, deliveredAt o = Some d /\ (s' <= d <= e')%N))
        /\ e_orders data `sublist_of` orders db
        /\ e_totalDeliveries data = length (e_orders data)
        /\ (e_orders data = [] -> totalEarnings data = 0 /\ averageEarning data = 0)).
Proof.
  split.
  - intros [s' ->] [e' ->] [H|H]; unfold getEarnings.
    + by injection H as ->.
    + injection H as ->. by destruct s'.
  - intros Hse.
    assert (getEarnings user s e db
            = let found := filter (fun o => earningsQuery user (mjoin s) (mjoin e) o)
                                  (orders db) in
              let total := fold_left (fun sum order =>
                                        sum + p_driverEarnings (pricing order))
                                     found 0 in
              Success 200
                {| totalEarnings := total;
                   e_totalDeliveries := length found;
                   averageEarning :=
                     if (0 <? length found)%nat
                     then total / inject_Z (Z.of_nat (length found)) else 0;
                   e_orders := found |}) as ->.
    { unfold getEarnings.
      destruct Hse as [->|[->|(s' & e' & -> & ->)]]; [done| |done].
      by destruct s as [[?|]|]. }
    cbv zeta. eexists. split; [done|].
    cbn [e_orders e_totalDeliveries totalEarnings averageEarning].
    set (found := filter _ (orders db)).
    split; [|split; [apply sublist_filter|split; [done|]]].
    + intros o. unfold found.
      rewrite list_elem_of_filter, Is_true_true, earningsQuery_spec.
      split.
      * intros [(Hd & Hs & Hr) Hin]. split; [done|]. split; [done|].
        split; [done|]. intros s' e' -> ->. by apply Hr.
      * intros (Hin & Hd & Hs & Hr). split; [|done]. split; [done|].
        split; [done|]. intros s' e' Hs' He'. apply Hr.
        -- by destruct s as [[?|]|]; simplify_eq/=.
        -- by destruct e as [[?|]|]; simplify_eq/=.
    + intros Hnil. fold found. by rewrite Hnil.
Qed.

(** Dan's earnings after the delivery of [lifecycle], for three requests:
    without dates, with a range that contains the delivery, and with a range
    whose end cannot be read. *)
Example getEarnings_answers :
  (e_totalDeliveries <$> answeredEarnings
     (getEarnings dan None None (lifecycle 1 2 3 4 5 6 7))) = Some 1%nat
  /\ (e_totalDeliveries <$> answeredEarnings
        (getEarnings dan (Some (Some 0%N)) (Some (Some 6%N)) (lifecycle 1 2 3 4 5 6 7)))
     = Some 0%nat
  /\ (e_totalDeliveries <$> answeredEarnings
        (getEarnings dan (Some None) None (lifecycle 1 2 3 4 5 6 7))) = Some 1%nat
  /\ getEarnings dan (Some (Some 0%N)) (Some None) (lifecycle 1 2 3 4 5 6 7)
     = Thrown CastError.
Proof. vm_compute. done. Qed.

Lemma updateById_absent j (f : Order -> Order) (l : list Order) :
  j ∉ map oid l -> updateById oid j f l = l.
Proof.
  unfold updateById. induction l as [|x l IH]; intros Hj; [done|].
  cbn [map] in *. apply not_elem_of_cons in Hj as [Hx Hj].
  rewrite bool_decide_eq_false_2 by done. by rewrite IH.
Qed.

(** Writing back one order that now matches a query it did not match before
    adds it to the matches, at its place in the collection. *)
Lemma matches_after_write (q : Order -> bool) j order saved (l : list Order) :
  NoDup (map oid l) ->
  findById oid j l = Some order ->
  q order = false -> q saved = true ->
  filter (fun o => q o) (updateById oid j (fun _ => saved) l)
  ≡ₚ saved :: filter (fun o => q o) l.
Proof.
  intros Hnd Hf Hq Hq'. unfold findById in Hf.
  induction l as [|x l IH]; [done|].
  cbn [map] in Hnd. apply NoDup_cons in Hnd as [Hx Hnd].
  cbn [List.find] in Hf. unfold updateById in *. cbn [map].
  case_bool_decide as Hxj.
  - injection Hf as ->. fold (updateById oid j (fun _ => saved) l).
    rewrite updateById_absent by (by rewrite <- Hxj).
    rewrite filter_cons_True by (by rewrite Hq').
    by rewrite (filter_cons_False _ order) by (rewrite Hq; cbn; tauto).
  - rewrite !filter_cons. destruct (decide (q x)).
    + rewrite (IH Hnd Hf). apply Permutation_swap.
    + by apply IH.
Qed.

(** Completing a delivery shows in the earnings. For a store with distinct
    order identifiers and an order of the caller that is not yet delivered,
    after [completeDelivery] the earnings summary of the caller (without date
    range) counts one more delivery: it lists the orders it listed before and
    the completed order, whose pricing is the one it was placed with. *)
Theorem completeDelivery_earnings now user i db order :
  NoDup (map oid (orders db)) ->
  findById oid i (orders db) = Some order ->
  driver order = Some (u_id user) ->
  status order <> delivered ->
  exists before after saved,
    getEarnings user None None db = Success 200 before
    /\ getEarnings user None None (completeDelivery now user i db).2
       = Success 200 after
    /\ (completeDelivery now user i db).1 = Success 200 saved
    /\ e_totalDeliveries after = S (e_totalDeliveries before)
    /\ e_orders after ≡ₚ saved :: e_orders before
    /\ oid saved = i
    /\ pricing saved = pricing order.
Proof.
  intros Hnd Horder Hd Hs.
  destruct (ComposeProps.completeDelivery_ok now user i db order Horder Hs Hd)
    as (saved & E & _ & K & Hs' & Hd' & _).
  pose proof (findById_key _ _ _ _ Horder) as Hid.
  assert (oid saved = i) as Hoid by (destruct K as [-> _]; done).
  assert (pricing saved = pricing order) as Hp
    by (by destruct K as (_ & _ & _ & _ & _ & -> & _)).
  unfold getEarnings. eexists _, _, saved. split; [done|]. split; [done|].
  cbn [e_totalDeliveries e_orders mjoin option_join]. rewrite E.
  cbn [fst snd orders set_restaurants set_users]. unfold persist.
  cbn [orders set_orders]. rewrite Hoid.
  pose proof (matches_after_write (earningsQuery user None None) i order saved
                (orders db) Hnd Horder) as Hperm.
  split; [done|]. rewrite Hperm.
  - by repeat split.
  - unfold earningsQuery. rewrite (bool_decide_eq_false_2 (status order = _)) by done.
    by rewrite andb_false_r.
  - unfold earningsQuery. by rewrite !bool_decide_eq_true_2.
Qed.

(** Dan completes the delivery of the order he picked up. *)
Lemma completeDelivery_earnings_witness :
  exists before after,
    getEarnings dan None None (pickedUp 1 2 3 4 5 6) = Success 200 before
    /\ getEarnings dan None None (lifecycle 1 2 3 4 5 6 7) = Success 200 after
    /\ e_totalDeliveries after = S (e_totalDeliveries before)
    /\ length (e_orders after) = S (length (e_orders before)).
Proof.
  assert (exists order,
            findById oid 1 (orders (pickedUp 1 2 3 4 5 6)) = Some order
            /\ driver order = Some (u_id dan) /\ status order <> delivered)
    as (order & Ho & Hd & Hs) by (vm_compute; eexists; repeat split; done).
  assert (NoDup (map oid (orders (pickedUp 1 2 3 4 5 6)))) as Hnd.
  { vm_compute. apply NoDup_singleton. }
  destruct (completeDelivery_earnings 7 dan 1 _ order Hnd Ho Hd Hs)
    as (before & after & saved & Hb & Ha & _ & Hn & Hp & _).
  exists before, after. split; [exact Hb|]. split; [exact Ha|].
  split; [exact Hn|]. by rewrite Hp.
Defined.

(** *** Position *)

Local Open Scope R_scope.

Lemma activeOrder_Some user db o :
  activeOrder user db = Some o ->
  o ∈ orders db
  /\ driver o = Some (u_id user)
  /\ (status o = picked_up \/ status o = on_the_way).
Proof.
  unfold activeOrder. intros H. apply find_some in H as [Hin H].
  apply andb_true_iff in H as [Hd Hs]. apply bool_decide_eq_true in Hd.
  split; [by apply list_elem_of_In|]. split; [done|].
  unfold includes in Hs. apply bool_decide_eq_true in Hs.
  destruct (status o); try (by left); try (by right);
    repeat (apply elem_of_cons in Hs as [Hs|Hs]; [discriminate Hs|]);
    by apply elem_of_nil in Hs.
Qed.

Lemma activeOrder_None user db o :
  activeOrder user db = None ->
  o ∈ orders db -> driver o = Some (u_id user) ->
  status o <> picked_up /\ status o <> on_the_way.
Proof.
  unfold activeOrder. intros H Hin Hd.
  apply list_elem_of_In in Hin.
  pose proof (find_none _ _ H o Hin) as Hf. cbn in Hf.
  rewrite bool_decide_eq_true_2 in Hf by done. cbn in Hf.
  split; intros Hs; rewrite Hs in Hf; by vm_compute in Hf.
Qed.

(** [updateLocation]. A request without latitude or longitude, or with a
    latitude or a longitude of 0 (a falsy number), is answered 400; nothing is
    stored and nothing is sent. Otherwise the answer is 200; the position of
    the caller, if the caller has a user document, is stored as [longitude,
    latitude], and no other position changes; and [driverLocation] is sent to
    the room of an order exactly when the caller has an order that is
    picked-up or on-the-way, to the room of such an order. *)
Theorem updateLocation_spec user latitude longitude db locations :
  let r := updateLocation user latitude longitude db locations in
  (given latitude = false \/ given longitude = false ->
   r = ((400%nat, LatitudeLongitudeRequired), None, locations))
  /\ (forall v,
        updateLocation user (Some 0) v db locations
        = ((400%nat, LatitudeLongitudeRequired), None, locations)
        /\ updateLocation user v (Some 0) db locations
           = ((400%nat, LatitudeLongitudeRequired), None, locations))
  /\ (forall lat lng,
        latitude = Some lat -> longitude = Some lng -> lat <> 0 -> lng <> 0 ->
        r.1.1 = (200%nat, LocationUpdated)
        /\ (is_Some (users db !! u_id user) ->
            r.2 !! u_id user = Some [lng; lat])
        /\ (users db !! u_id user = None -> r.2 = locations)
        /\ (forall j, j <> u_id user -> r.2 !! j = locations !! j)
        /\ (forall k, r.1.2 = Some k ->
               exists o, o ∈ orders db /\ oid o = k
                         /\ driver o = Some (u_id user)
                         /\ (status o = picked_up \/ status o = on_the_way))
        /\ (r.1.2 = None ->
            forall o, o ∈ orders db -> driver o = Some (u_id user) ->
                      status o <> picked_up /\ status o <> on_the_way)).
Proof.
  cbv zeta. split; [|split].
  - unfold updateLocation. intros [H|H].
    + destruct latitude as [lat|], longitude as [lng|]; try done.
      by rewrite H.
    + destruct latitude as [lat|], longitude as [lng|]; try done.
      rewrite H. by rewrite orb_true_r.
  - intros v. unfold updateLocation, given.
    rewrite (bool_decide_eq_true_2 (0 = 0)) by done. cbn [negb orb].
    split; destruct v as [x|]; try done. by rewrite orb_true_r.
  - intros lat lng -> -> Hlat Hlng. unfold updateLocation, given.
    rewrite !bool_decide_eq_false_2 by done. cbn [negb orb fst snd].
    split; [done|]. split; [|split; [|split; [|split]]].
    + intros [u ->]. by rewrite lookup_insert_eq.
    + by intros ->.
    + intros j Hj. destruct (users db !! u_id user); [|done].
      by rewrite lookup_insert_ne.
    + intros k Hk. destruct (activeOrder user db) as [o|] eqn:Ho; [|done].
      injection Hk as <-. exists o.
      apply activeOrder_Some in Ho as (? & ? & ?). done.
    + intros Hnone o Hin Hd.
      destruct (activeOrder user db) as [o'|] eqn:Ho; [done|].
      by apply (activeOrder_None user db o).
Qed.

End DriverProps.
